(** * desktop-notifier: the macOS (UNUserNotificationCenter) backend

    A shallow embedding of [src/desktop_notifier/macos.py]: the delegate
    that routes user interactions to the callbacks of a notification, and
    the [CocoaNotificationCenter] backend that registers categories and
    submits notification requests.

    Python strings are sequences of Unicode code points; the notification
    centre, the process-local lookup mapping and the callbacks' observable
    effects are threaded through an explicit state with exceptions. *)

From Stdlib Require Import String Ascii NArith ZArith List Bool Lia.
From stdpp Require Import base option list countable gmap.
Import ListNotations.

Local Open Scope N_scope.

(** ** Python strings *)

(** A [str] is a sequence of code points. *)
Abbreviation pystr := (list N).

(** A string literal of the source: its characters' code points. *)
Definition lit (s : string) : pystr :=
  map N_of_ascii (list_ascii_of_string s).

(** Every code point of a Python [str] is at most U+10FFFF. *)
Definition valid_char (ch : N) : Prop := ch <= 1114111.
Definition valid_str (s : pystr) : Prop := Forall valid_char s.

(** Code points that [repr] treats specially. *)
Definition SQUOTE : N := 39.
Definition DQUOTE : N := 34.
Definition BACKSLASH : N := 92.

(** *** [repr] of a [str], as CPython's [unicode_repr] computes it *)

(** [Py_hexdigits[d]]: the lower-case hexadecimal digit of [d]. *)
Definition hexdigit (d : N) : N :=
  if d <? 10 then 48 + d else 87 + d.

(** The [k] hexadecimal digits of [ch], most significant first:
    [Py_hexdigits[(ch >> 4*(k-1)) & 0xF] ... Py_hexdigits[ch & 0xF]]. *)
Fixpoint hexdigits (k : nat) (ch : N) : pystr :=
  match k with
  | O => []
  | S k' => hexdigit (N.land (N.shiftr ch (4 * N.of_nat k')) 15) :: hexdigits k' ch
  end.


(** The value of a run of hexadecimal digits read from the left, starting
    from [acc]; used to read back what [hexdigits] wrote. *)
Definition unhex (c : N) : N :=
  if c <? 58 then c - 48 else c - 87.

Definition hexval (acc : N) (ds : pystr) : N :=
  fold_left (fun a d => a * 16 + unhex d) ds acc.

(** ** Exceptions, callbacks and the notification record *)

Inductive PyExc : Type :=
| KeyError (key : pystr)
| RuntimeError (msg : pystr)
| CallbackError (tag : nat).

Inductive Result (A : Type) : Type :=
| Ok (a : A)
| Raise (e : PyExc).

Arguments Ok {A} a.
Arguments Raise {A} e.

(** A caller-supplied callable. Calling it is observable (the call is
    recorded under the callable's tag) and it either returns or raises. *)
Record Callback : Type := {
  cb_tag : nat;
  cb_raises : bool }.

(** The reply callback takes the reply text. *)
Record ReplyCallback : Type := {
  rcb_tag : nat;
  rcb_raises : pystr -> bool }.

(** A Python [dict] with string keys keeps its insertion order:
    an association list whose keys are pairwise distinct. *)
Abbreviation pydict V := (list (pystr * V)).

Definition dict_keys {V} (d : pydict V) : list pystr := map fst d.

(** [d.get(key)] *)
Fixpoint dict_get {V} (d : pydict V) (key : pystr) : option V :=
  match d with
  | [] => None
  | (k, v) :: d' => if decide (k = key) then Some v else dict_get d' key
  end.

(** Truth value of a [dict]: non-empty. *)
Definition dict_bool {V} (d : pydict V) : bool :=
  match d with [] => false | _ :: _ => true end.

(** Modelled from the spec: the [Notification] value object of base.py,
    which is not part of the sources at hand. Fields as section 3 of the
    specification lists them; [identifier] is [None] until the notification
    has been sent and the platform identifier afterwards. *)
Record Notification : Type := {
  identifier : option pystr;
  title : pystr;
  message : pystr;
  thread : option pystr;
  sound : bool;
  attachment : option pystr;
  buttons : pydict Callback;
  reply_field : bool;
  on_replied : option ReplyCallback;
  on_clicked : option Callback;
  on_dismissed : option Callback }.

(** [str(notification.identifier)] *)
Definition str_identifier (i : option pystr) : pystr :=
  match i with
  | Some s => s
  | None => lit "None"
  end.

(** ** Objects of the UserNotifications framework *)

Definition UNNotificationDefaultActionIdentifier : pystr :=
  lit "com.apple.UNNotificationDefaultActionIdentifier".
Definition UNNotificationDismissActionIdentifier : pystr :=
  lit "com.apple.UNNotificationDismissActionIdentifier".

Definition UNNotificationActionOptionNone : N := 0.
Definition UNNotificationCategoryOptionNone : N := 0.

Definition UNAuthorizationStatusAuthorized : Z := 2.
Definition UNAuthorizationStatusProvisional : Z := 3.
Definition UNAuthorizationStatusEphemeral : Z := 4.

Definition ReplyActionIdentifier : pystr :=
  lit "com.desktop-notifier.ReplyActionIdentifier".

(** [UNNotificationAction], and [UNTextInputNotificationAction] when
    [action_textInput] gives the button title and the placeholder. *)
Record UNNotificationAction : Type := {
  action_identifier : pystr;
  action_title : pystr;
  action_options : N;
  action_textInput : option (pystr * pystr) }.

Record UNNotificationCategory : Type := {
  category_identifier : pystr;
  category_actions : list UNNotificationAction;
  category_intentIdentifiers : list pystr;
  category_options : N }.

#[global] Instance UNNotificationAction_eq_dec : EqDecision UNNotificationAction.
Proof. solve_decision. Defined.

#[global] Instance UNNotificationAction_countable : Countable UNNotificationAction.
Proof.
  refine (inj_countable'
    (fun a => (action_identifier a, action_title a, action_options a, action_textInput a))
    (fun t => match t with (i, t, o, x) =>
       {| action_identifier := i; action_title := t;
          action_options := o; action_textInput := x |} end) _).
  intros []; reflexivity.
Defined.

#[global] Instance UNNotificationCategory_eq_dec : EqDecision UNNotificationCategory.
Proof. solve_decision. Defined.

#[global] Instance UNNotificationCategory_countable : Countable UNNotificationCategory.
Proof.
  refine (inj_countable'
    (fun c => (category_identifier c, category_actions c,
               category_intentIdentifiers c, category_options c))
    (fun t => match t with (i, a, n, o) =>
       {| category_identifier := i; category_actions := a;
          category_intentIdentifiers := n; category_options := o |} end) _).
  intros []; reflexivity.
Defined.

(** [UNMutableNotificationContent] as [_send] fills it in. *)
Record UNNotificationContent : Type := {
  content_title : pystr;
  content_body : pystr;
  content_categoryIdentifier : option pystr;
  content_threadIdentifier : option pystr;
  content_sound : bool;
  content_attachments : list pystr }.

(** [UNNotificationRequest.requestWithIdentifier(_, content=_, trigger=None)] *)
Record UNNotificationRequest : Type := {
  request_identifier : pystr;
  request_content : UNNotificationContent }.

Record NSError : Type := {
  localizedDescription : pystr }.

(** The response the notification centre hands to the delegate. *)
Record UNNotificationResponse : Type := {
  response_identifier : pystr;
  actionIdentifier : pystr;
  userText : pystr }.

(** ** The state: notification centre, backend object and observable trace *)

(** What the program does to the outside, in order: calls into the
    notification centre, calls of user callbacks, and calls of the
    completion block the delegate receives. *)
Inductive Event : Type :=
| GetNotificationSettings
| GetNotificationCategories
| SetNotificationCategories (cats : gset UNNotificationCategory)
| AddNotificationRequest (request : UNNotificationRequest)
| Called (tag : nat)
| CalledWith (tag : nat) (text : pystr)
| CompletionHandler.

Record State : Type := {
  (** notification centre: [settings.authorizationStatus] *)
  authorizationStatus : Z;
  (** notification centre: the registered categories *)
  categories : gset UNNotificationCategory;
  (** notification centre: the error, if any, it reports for a request *)
  add_request_error : UNNotificationRequest -> option NSError;
  (** [uuid.uuid4()]: the identifiers it hands out, and how many so far *)
  uuid_source : nat -> pystr;
  uuid_count : nat;
  (** backend object: platform identifier to notification *)
  _notification_for_nid : gmap pystr Notification;
  (** everything observable done so far *)
  trace : list Event }.

Definition set_categories (cats : gset UNNotificationCategory) (st : State) : State :=
  {| authorizationStatus := authorizationStatus st;
     categories := cats;
     add_request_error := add_request_error st;
     uuid_source := uuid_source st;
     uuid_count := uuid_count st;
     _notification_for_nid := _notification_for_nid st;
     trace := trace st |}.

Definition set_uuid_count (k : nat) (st : State) : State :=
  {| authorizationStatus := authorizationStatus st;
     categories := categories st;
     add_request_error := add_request_error st;
     uuid_source := uuid_source st;
     uuid_count := k;
     _notification_for_nid := _notification_for_nid st;
     trace := trace st |}.

Definition set_notification_for_nid (m : gmap pystr Notification) (st : State) : State :=
  {| authorizationStatus := authorizationStatus st;
     categories := categories st;
     add_request_error := add_request_error st;
     uuid_source := uuid_source st;
     uuid_count := uuid_count st;
     _notification_for_nid := m;
     trace := trace st |}.

Definition set_trace (t : list Event) (st : State) : State :=
  {| authorizationStatus := authorizationStatus st;
     categories := categories st;
     add_request_error := add_request_error st;
     uuid_source := uuid_source st;
     uuid_count := uuid_count st;
     _notification_for_nid := _notification_for_nid st;
     trace := t |}.

(** Computations that read and change the state and may raise. A raised
    exception keeps the changes made before it. *)
Definition M (A : Type) : Type := State -> Result A * State.

Definition ret {A} (a : A) : M A := fun st => (Ok a, st).

Definition bind {A B} (c : M A) (k : A -> M B) : M B :=
  fun st =>
    match c st with
    | (Ok a, st') => k a st'
    | (Raise e, st') => (Raise e, st')
    end.

Definition raise {A} (e : PyExc) : M A := fun st => (Raise e, st).

Definition gets {A} (f : State -> A) : M A := fun st => (Ok (f st), st).

Definition modify (f : State -> State) : M unit := fun st => (Ok tt, f st).

Definition emit (e : Event) : M unit :=
  modify (fun st => set_trace (trace st ++ [e]) st).

Notation "'let*' x := c 'in' k" := (bind c (fun x => k))
  (at level 10, x name, c at level 100, k at level 200).
Notation "c ;; k" := (bind c (fun _ => k))
  (at level 100, k at level 200, right associativity).

(** Calling a user callback. *)
Definition call (cb : Callback) : M unit :=
  emit (Called (cb_tag cb)) ;;
  if cb_raises cb then raise (CallbackError (cb_tag cb)) else ret tt.

Definition call_with (cb : ReplyCallback) (text : pystr) : M unit :=
  emit (CalledWith (rcb_tag cb) text) ;;
  if rcb_raises cb text then raise (CallbackError (rcb_tag cb)) else ret tt.

(** [if callback: callback()] *)
Definition call_if_set (cb : option Callback) : M unit :=
  match cb with
  | Some f => call f
  | None => ret tt
  end.

(** How many times the completion block was called in a trace. *)
Definition is_completion (e : Event) : bool :=
  match e with CompletionHandler => true | _ => false end.

Definition completions (t : list Event) : nat :=
  length (List.filter is_completion t).

(** The user callbacks called in a trace. *)
Definition is_callback (e : Event) : bool :=
  match e with Called _ | CalledWith _ _ => true | _ => false end.

Definition callbacks (t : list Event) : list Event :=
  List.filter is_callback t.

(** ** [NotificationCenterDelegate] *)

(** [self.interface._notification_for_nid[platform_nid]]: subscripting a
    [dict] raises [KeyError] for a missing key. *)
Definition notification_for_nid (platform_nid : pystr) : M Notification :=
  let* m := gets _notification_for_nid in
  match m !! platform_nid with
  | Some n => ret n
  | None => raise (KeyError platform_nid)
  end.

(** The branch of the handler that invokes the callback which corresponds
    to the user interaction. *)
Definition invoke_callback (py_notification : Notification)
    (response : UNNotificationResponse) : M unit :=
  if decide (actionIdentifier response = UNNotificationDefaultActionIdentifier) then
    call_if_set (on_clicked py_notification)
  else if decide (actionIdentifier response = UNNotificationDismissActionIdentifier) then
    call_if_set (on_dismissed py_notification)
  else if decide (actionIdentifier response = ReplyActionIdentifier) then
    match on_replied py_notification with
    | Some f => let reply_text := userText response in call_with f reply_text
    | None => ret tt
    end
  else
    let action_id_str := actionIdentifier response in
    let callback := dict_get (buttons py_notification) action_id_str in
    call_if_set callback.

Definition userNotificationCenter_didReceiveNotificationResponse_withCompletionHandler_
    (response : UNNotificationResponse) : M unit :=
  let platform_nid := response_identifier response in
  let* py_notification := notification_for_nid platform_nid in
  invoke_callback py_notification response ;;
  emit CompletionHandler.

(** ** [CocoaNotificationCenter] *)

(** [self.nc.setNotificationCategories(cats)] *)
Definition setNotificationCategories (cats : gset UNNotificationCategory) : M unit :=
  emit (SetNotificationCategories cats) ;;
  modify (set_categories cats).

(** [_clear_notification_categories]: registers the empty set. *)
Definition _clear_notification_categories : M unit :=
  let empty_set : gset UNNotificationCategory := ∅ in
  setNotificationCategories empty_set.

(** [__init__]: once the base class is initialised and the delegate is
    installed (neither calls the notification centre), the registered
    categories are cleared. *)
Definition __init__ : M unit :=
  _clear_notification_categories.

(** [has_authorisation]: asks the notification centre for its settings. *)
Definition status_authorized (status : Z) : bool :=
  bool_decide (status = UNAuthorizationStatusAuthorized)
  || bool_decide (status = UNAuthorizationStatusProvisional)
  || bool_decide (status = UNAuthorizationStatusEphemeral).

Definition has_authorisation : M bool :=
  emit GetNotificationSettings ;;
  let* status := gets authorizationStatus in
  let authorized := status_authorized status in
  ret authorized.

(** [_get_notification_categories] *)
Definition _get_notification_categories : M (gset UNNotificationCategory) :=
  emit GetNotificationCategories ;;
  gets categories.

(** [str(uuid.uuid4())]: the next identifier of the generator. *)
Definition uuid4 : M pystr :=
  let* k := gets uuid_count in
  let* src := gets uuid_source in
  modify (set_uuid_count (S k)) ;;
  ret (src k).

(** [self.nc.addNotificationRequest(request, withCompletionHandler=handler)]
    followed by [future.result()]: the description of the error the
    notification centre reports, or the empty string. *)
Definition error_description (ns_error : option NSError) : pystr :=
  match ns_error with
  | Some e => localizedDescription e
  | None => lit ""
  end.

Definition addNotificationRequest (request : UNNotificationRequest) : M pystr :=
  emit (AddNotificationRequest request) ;;
  let* ns_error := gets (fun st => add_request_error st request) in
  ret (error_description ns_error).

Section Backend.


(** [Py_UNICODE_ISPRINTABLE], the Unicode database's table of printable
    code points; [repr] consults it for non-ASCII characters only. *)
Variable isprintable : N -> bool.

(** The quote [repr] wraps the string in: a double quote when the string
    has a single quote and no double quote, a single quote otherwise. *)
Definition repr_quote (s : pystr) : N :=
  if existsb (N.eqb SQUOTE) s && negb (existsb (N.eqb DQUOTE) s)
  then DQUOTE else SQUOTE.

(** What [repr] writes for one character, given the chosen quote. *)
Definition repr_char (quote ch : N) : pystr :=
  if (ch =? quote) || (ch =? BACKSLASH) then [BACKSLASH; ch]
  else if ch =? 9 then [BACKSLASH; 116]
  else if ch =? 10 then [BACKSLASH; 110]
  else if ch =? 13 then [BACKSLASH; 114]
  else if (ch <? 32) || (ch =? 127) then BACKSLASH :: 120 :: hexdigits 2 ch
  else if ch <? 127 then [ch]
  else if negb (isprintable ch) then
    BACKSLASH ::
      (if ch <=? 255 then 120 :: hexdigits 2 ch
       else if ch <=? 65535 then 117 :: hexdigits 4 ch
       else 85 :: hexdigits 8 ch)
  else [ch].

Definition repr_body (quote : N) (s : pystr) : pystr :=
  flat_map (repr_char quote) s.

Definition repr_str (s : pystr) : pystr :=
  let quote := repr_quote s in
  quote :: repr_body quote s ++ [quote].

(** [repr] of a tuple of strings: the items' [repr]s separated by
    [", "], in parentheses, with a trailing comma for a 1-tuple. *)
Fixpoint repr_items (items : list pystr) : pystr :=
  match items with
  | [] => []
  | [x] => repr_str x
  | x :: rest => repr_str x ++ lit ", " ++ repr_items rest
  end.

Definition repr_tuple (items : list pystr) : pystr :=
  lit "(" ++ repr_items items
    ++ (if (length items =? 1)%nat then lit "," else []) ++ lit ")".

(** [str] of a [bool], as an f-string formats it. *)
Definition str_bool (b : bool) : pystr :=
  if b then lit "True" else lit "False".

(** The category identifier [_create_category_for_notification] derives
    from the button titles, in order, and the reply-field flag. *)
Definition category_id_for (button_titles : list pystr) (reply : bool) : pystr :=
  let ui_repr :=
    lit "buttons=" ++ repr_tuple button_titles
      ++ lit ", reply_field=" ++ str_bool reply in
  lit "desktop-notifier: " ++ ui_repr.

(** The actions of a new category: the text-input action first when a
    reply field is asked for, then one action per button. *)
Definition category_actions_for (notification : Notification) : list UNNotificationAction :=
  (if reply_field notification then
     [ {| action_identifier := ReplyActionIdentifier;
          action_title := lit "Reply";
          action_options := UNNotificationActionOptionNone;
          action_textInput := Some (lit "Reply", lit "") |} ]
   else [])
  ++ map (fun name =>
            {| action_identifier := name;
               action_title := name;
               action_options := UNNotificationActionOptionNone;
               action_textInput := None |})
         (dict_keys (buttons notification)).

Definition _create_category_for_notification
    (notification : Notification) : M (option pystr) :=
  if negb (dict_bool (buttons notification) || reply_field notification) then
    ret None
  else
    let button_titles := dict_keys (buttons notification) in
    let category_id := category_id_for button_titles (reply_field notification) in
    let* categories := _get_notification_categories in
    let category_ids : gset pystr := set_map category_identifier categories in
    (if decide (category_id ∈ category_ids) then ret tt
     else
       let actions := category_actions_for notification in
       let new_categories :=
         categories ∪
           {[ {| category_identifier := category_id;
                 category_actions := actions;
                 category_intentIdentifiers := [];
                 category_options := UNNotificationCategoryOptionNone |} ]} in
       setNotificationCategories new_categories) ;;
    ret (Some category_id).

(** The native content [_send] builds for a notification. An attachment
    is added when the path is set and not empty. *)
Definition notification_content (notification : Notification)
    (category_id : option pystr) : UNNotificationContent :=
  {| content_title := title notification;
     content_body := message notification;
     content_categoryIdentifier := category_id;
     content_threadIdentifier := thread notification;
     content_sound := sound notification;
     content_attachments :=
       match attachment notification with
       | Some (c :: path) => [c :: path]
       | _ => []
       end |}.

Definition _send (notification : Notification)
    (notification_to_replace : option Notification) : M pystr :=
  let* authorised := has_authorisation in
  if negb authorised then raise (RuntimeError (lit "Not authorised"))
  else
    let* platform_nid :=
      match notification_to_replace with
      | Some replaced => ret (str_identifier (identifier replaced))
      | None => uuid4
      end in
    let* category_id := _create_category_for_notification notification in
    let content := notification_content notification category_id in
    let notification_request :=
      {| request_identifier := platform_nid; request_content := content |} in
    let* error := addNotificationRequest notification_request in
    if negb (bool_decide (error = lit "")) then raise (RuntimeError error)
    else ret platform_nid.

(** Modelled from the spec: [send] of the common base class (base.py is
    not part of the sources at hand). It submits the notification through
    [_send]; a failure surfaces as the runtime error, and on success the
    returned platform identifier is recorded in the lookup mapping. *)
Definition send (notification : Notification)
    (replacing : option Notification) : M pystr :=
  let* platform_nid := _send notification replacing in
  modify (fun st =>
    set_notification_for_nid
      (<[platform_nid := notification]> (_notification_for_nid st)) st) ;;
  ret platform_nid.

(** The shapes of what [repr] writes for a character [ch]: the character
    itself, or a backslash escape. *)
Inductive char_form (quote ch : N) : pystr -> Prop :=
| form_literal : ch <> quote -> ch <> BACKSLASH -> char_form quote ch [ch]
| form_escaped : ch = quote \/ ch = BACKSLASH -> char_form quote ch [BACKSLASH; ch]
| form_tab : ch = 9 -> char_form quote ch [BACKSLASH; 116]
| form_newline : ch = 10 -> char_form quote ch [BACKSLASH; 110]
| form_return : ch = 13 -> char_form quote ch [BACKSLASH; 114]
| form_hex2 : ch < 16 ^ 2 -> char_form quote ch (BACKSLASH :: 120 :: hexdigits 2 ch)
| form_hex4 : ch < 16 ^ 4 -> char_form quote ch (BACKSLASH :: 117 :: hexdigits 4 ch)
| form_hex8 : ch < 16 ^ 8 -> char_form quote ch (BACKSLASH :: 85 :: hexdigits 8 ch).

(** The quotes [repr] chooses between. *)
Definition is_quote (q : N) : Prop := q = SQUOTE \/ q = DQUOTE.

(** What follows the items of a tuple: [")"], or [",)"] for a 1-tuple. *)
Definition tuple_end (r : pystr) : Prop :=
  (exists t, r = 41 :: t) \/ (exists t, r = 44 :: 41 :: t).

(** ** What a trace holds, and the category a notification stands for *)

(** The category [_create_category_for_notification] registers for a
    notification whose identifier is not registered yet. *)
Definition new_category_for (notification : Notification) : UNNotificationCategory :=
  {| category_identifier :=
       category_id_for (dict_keys (buttons notification)) (reply_field notification);
     category_actions := category_actions_for notification;
     category_intentIdentifiers := [];
     category_options := UNNotificationCategoryOptionNone |}.

(** How many requests were submitted in a trace. *)
Definition is_submission (e : Event) : bool :=
  match e with AddNotificationRequest _ => true | _ => false end.

Definition submissions (t : list Event) : nat :=
  length (List.filter is_submission t).

(** How many times the registered categories were replaced in a trace. *)
Definition is_category_update (e : Event) : bool :=
  match e with SetNotificationCategories _ => true | _ => false end.

Definition category_updates (t : list Event) : nat :=
  length (List.filter is_category_update t).

(** ** Sample data *)

(** A notification centre that grants authorisation, has no category
    registered and accepts every request; [uuid4] hands out strings of
    growing length. *)
Definition quiet_state : State :=
  {| authorizationStatus := UNAuthorizationStatusAuthorized;
     categories := ∅;
     add_request_error := fun _ => None;
     uuid_source := fun k => repeat 97 (S k);
     uuid_count := 0;
     _notification_for_nid := ∅;
     trace := [] |}.

(** A plain notification without buttons, reply field or callbacks. *)
Definition plain_notification : Notification :=
  {| identifier := None;
     title := lit "Build";
     message := lit "finished";
     thread := None;
     sound := false;
     attachment := None;
     buttons := [];
     reply_field := false;
     on_replied := None;
     on_clicked := None;
     on_dismissed := None |}.

(** A notification whose click callback (tag 1) raises. *)
Definition raising_notification : Notification :=
  {| identifier := Some (lit "n-1");
     title := lit "Build";
     message := lit "failed";
     thread := None;
     sound := false;
     attachment := None;
     buttons := [];
     reply_field := false;
     on_replied := None;
     on_clicked := Some {| cb_tag := 1; cb_raises := true |};
     on_dismissed := None |}.

(** A click on a notification the backend has no record of. *)
Definition stale_click : UNNotificationResponse :=
  {| response_identifier := lit "gone";
     actionIdentifier := UNNotificationDefaultActionIdentifier;
     userText := lit "" |}.

(** A click on the notification recorded under ["n-1"]. *)
Definition click_n1 : UNNotificationResponse :=
  {| response_identifier := lit "n-1";
     actionIdentifier := UNNotificationDefaultActionIdentifier;
     userText := lit "" |}.

(** A notification with a click callback (tag 1) and a button (tag 2)
    whose title is the reserved default-action identifier. *)
Definition colliding_notification : Notification :=
  {| identifier := Some (lit "n-1");
     title := lit "Build";
     message := lit "finished";
     thread := None;
     sound := false;
     attachment := None;
     buttons :=
       [(UNNotificationDefaultActionIdentifier, {| cb_tag := 2; cb_raises := false |})];
     reply_field := false;
     on_replied := None;
     on_clicked := Some {| cb_tag := 1; cb_raises := false |};
     on_dismissed := None |}.

(** The backend after [notification] was recorded under [nid]. *)
Definition with_notification (nid : pystr) (notification : Notification)
    (st : State) : State :=
  set_notification_for_nid (<[nid := notification]> (_notification_for_nid st)) st.

Definition raising_state : State :=
  with_notification (lit "n-1") raising_notification quiet_state.

Definition colliding_state : State :=
  with_notification (lit "n-1") colliding_notification quiet_state.

(** The quiet notification centre with authorisation denied. *)
Definition denied_state : State :=
  {| authorizationStatus := 1;
     categories := ∅;
     add_request_error := fun _ => None;
     uuid_source := fun k => repeat 97 (S k);
     uuid_count := 0;
     _notification_for_nid := ∅;
     trace := [] |}.

(** A category another process registered, and the quiet notification
    centre holding it. *)
Definition foreign_category : UNNotificationCategory :=
  {| category_identifier := lit "desktop-notifier: buttons=('Snooze',), reply_field=False";
     category_actions :=
       [ {| action_identifier := lit "Snooze";
            action_title := lit "Snooze";
            action_options := UNNotificationActionOptionNone;
            action_textInput := None |} ];
     category_intentIdentifiers := [];
     category_options := UNNotificationCategoryOptionNone |}.

Definition shared_state : State :=
  set_categories {[ foreign_category ]} quiet_state.

(** Two notifications with the same button titles in opposite order. *)
Definition yes_no_notification : Notification :=
  {| identifier := None;
     title := lit "Deploy";
     message := lit "Go ahead?";
     thread := None;
     sound := true;
     attachment := None;
     buttons := [(lit "Yes", {| cb_tag := 3; cb_raises := false |});
                 (lit "No", {| cb_tag := 4; cb_raises := false |})];
     reply_field := false;
     on_replied := None;
     on_clicked := None;
     on_dismissed := None |}.

Definition no_yes_notification : Notification :=
  {| identifier := None;
     title := lit "Deploy";
     message := lit "Go ahead?";
     thread := None;
     sound := true;
     attachment := None;
     buttons := [(lit "No", {| cb_tag := 4; cb_raises := false |});
                 (lit "Yes", {| cb_tag := 3; cb_raises := false |})];
     reply_field := false;
     on_replied := None;
     on_clicked := None;
     on_dismissed := None |}.

(** A stand-in for the table of printable code points: right on Latin-1,
    and nothing beyond it counts as printable. *)
Definition printable_latin1 (ch : N) : bool :=
  (160 <? ch) && (ch <? 256) && negb (ch =? 173).

(** The quiet backend with the yes/no notification recorded under
    ["n-2"], and presses of its buttons. *)
Definition yes_no_state : State :=
  with_notification (lit "n-2") yes_no_notification quiet_state.

Definition press_yes : UNNotificationResponse :=
  {| response_identifier := lit "n-2";
     actionIdentifier := lit "Yes";
     userText := lit "" |}.

(** A press of a button the notification does not have. *)
Definition press_maybe : UNNotificationResponse :=
  {| response_identifier := lit "n-2";
     actionIdentifier := lit "Maybe";
     userText := lit "" |}.

(** A category under the identifier of the yes/no notification that
    another process registered without any action. *)
Definition actionless_category : UNNotificationCategory :=
  {| category_identifier := lit "desktop-notifier: buttons=('Yes', 'No'), reply_field=False";
     category_actions := [];
     category_intentIdentifiers := [];
     category_options := UNNotificationCategoryOptionNone |}.

Definition actionless_state : State :=
  set_categories {[ actionless_category ]} quiet_state.

(** A second notification with the buttons of the yes/no notification
    and callbacks of its own. *)
Definition yes_no_reminder : Notification :=
  {| identifier := None;
     title := lit "Deploy";
     message := lit "Still waiting";
     thread := Some (lit "deploys");
     sound := false;
     attachment := Some (lit "");
     buttons := [(lit "Yes", {| cb_tag := 5; cb_raises := false |});
                 (lit "No", {| cb_tag := 6; cb_raises := true |})];
     reply_field := false;
     on_replied := None;
     on_clicked := None;
     on_dismissed := None |}.

(** * Properties *)

(** ** Hexadecimal digits can be read back *)

Lemma unhex_hexdigit (d : N) : d < 16 -> unhex (hexdigit d) = d.
Proof.
  intros Hd. unfold unhex, hexdigit.
  destruct (N.ltb_spec d 10).
  - destruct (N.ltb_spec (48 + d) 58); lia.
  - destruct (N.ltb_spec (87 + d) 58); lia.
Qed.

Lemma hexdigits_length (k : nat) (ch : N) : length (hexdigits k ch) = k.
Proof. induction k; simpl; congruence. Qed.

Lemma hexval_hexdigits (k : nat) (ch acc : N) :
  hexval acc (hexdigits k ch) = acc * 16 ^ N.of_nat k + ch mod 16 ^ N.of_nat k.
Proof.
  revert acc. induction k as [|k IH]; intros acc.
  - simpl. rewrite N.mod_1_r. lia.
  - cbn [hexdigits hexval fold_left]. fold (hexval (acc * 16 +
      unhex (hexdigit (N.land (N.shiftr ch (4 * N.of_nat k)) 15))) (hexdigits k ch)).
    rewrite IH.
    change 15 with (N.ones 4). rewrite N.land_ones, N.shiftr_div_pow2.
    rewrite unhex_hexdigit by (apply N.mod_upper_bound; discriminate).
    replace (2 ^ (4 * N.of_nat k)) with (16 ^ N.of_nat k)
      by (change 16 with (2 ^ 4); now rewrite <- N.pow_mul_r).
    change (2 ^ 4) with 16.
    rewrite Nat2N.inj_succ, N.pow_succ_r'.
    rewrite (N.mul_comm 16 (16 ^ N.of_nat k)) at 2.
    rewrite N.Div0.mod_mul_r. lia.
Qed.

Lemma hexdigits_inj_app (k : nat) (a b : N) (r1 r2 : pystr) :
  a < 16 ^ N.of_nat k -> b < 16 ^ N.of_nat k ->
  hexdigits k a ++ r1 = hexdigits k b ++ r2 -> a = b /\ r1 = r2.
Proof.
  intros Ha Hb H.
  apply app_inj_1 in H; [|now rewrite !hexdigits_length].
  destruct H as [H ->]. split; [|reflexivity].
  apply (f_equal (hexval 0)) in H.
  rewrite !hexval_hexdigits, !N.mod_small in H by assumption. lia.
Qed.

(** ** [repr] of a string can be read back *)

Lemma repr_quote_is_quote (s : pystr) : is_quote (repr_quote s).
Proof. unfold repr_quote, is_quote. destruct (_ && _); auto. Qed.

Lemma repr_char_form (q ch : N) :
  valid_char ch -> char_form q ch (repr_char q ch).
Proof.
  unfold valid_char, repr_char, BACKSLASH. intros Hv.
  destruct (N.eqb_spec ch q); [now constructor; auto|].
  destruct (N.eqb_spec ch 92); [now constructor; auto|]. cbn [orb].
  destruct (N.eqb_spec ch 9); [now constructor|].
  destruct (N.eqb_spec ch 10); [now constructor|].
  destruct (N.eqb_spec ch 13); [now constructor|].
  destruct (N.ltb_spec ch 32); [apply form_hex2; simpl; lia|].
  destruct (N.eqb_spec ch 127); [apply form_hex2; simpl; lia|]. cbn [orb].
  destruct (N.ltb_spec ch 127); [now constructor|].
  destruct (isprintable ch); cbn [negb]; [now constructor|].
  destruct (N.leb_spec ch 255); [apply form_hex2; simpl; lia|].
  destruct (N.leb_spec ch 65535); [apply form_hex4; simpl; lia|].
  apply form_hex8. simpl. lia.
Qed.

Lemma escape_tail_eq (x y : N) (l1 l2 : pystr) :
  x :: y :: l1 = x :: y :: l2 -> l1 = l2.
Proof. congruence. Qed.

Lemma char_form_inj_app (q a b : N) (ea eb r1 r2 : pystr) :
  is_quote q -> char_form q a ea -> char_form q b eb ->
  ea ++ r1 = eb ++ r2 -> a = b /\ r1 = r2.
Proof.
  intros Hq Ha Hb H.
  destruct Ha, Hb; unfold is_quote, SQUOTE, DQUOTE, BACKSLASH in *; cbn [app] in H;
    try (injection H; intros; subst; split; [lia | reflexivity]);
    try (exfalso; injection H; intros; lia);
    try (apply escape_tail_eq in H; apply hexdigits_inj_app in H; assumption).
Qed.

Lemma char_form_head (q ch : N) (e : pystr) :
  is_quote q -> char_form q ch e -> exists c t, e = c :: t /\ c <> q.
Proof.
  intros Hq He.
  destruct He; unfold is_quote, SQUOTE, DQUOTE, BACKSLASH in *;
    eexists; eexists; (split; [reflexivity | lia]).
Qed.

Lemma repr_body_cons (q a : N) (s : pystr) :
  repr_body q (a :: s) = repr_char q a ++ repr_body q s.
Proof. reflexivity. Qed.

Lemma repr_body_inj_app (q : N) (s1 s2 r1 r2 : pystr) :
  is_quote q -> valid_str s1 -> valid_str s2 ->
  repr_body q s1 ++ q :: r1 = repr_body q s2 ++ q :: r2 ->
  s1 = s2 /\ r1 = r2.
Proof.
  intros Hq Hv1. revert s2.
  induction Hv1 as [|a s1 Ha Hv1 IH]; intros s2 Hv2 H;
    destruct Hv2 as [|b s2 Hb Hv2].
  - cbn in H. now injection H as ->.
  - exfalso. rewrite repr_body_cons, <- app_assoc in H.
    destruct (char_form_head q b _ Hq (repr_char_form q b Hb)) as (c & t & Heq & Hc).
    rewrite Heq in H. cbn in H. congruence.
  - exfalso. rewrite repr_body_cons, <- app_assoc in H.
    destruct (char_form_head q a _ Hq (repr_char_form q a Ha)) as (c & t & Heq & Hc).
    rewrite Heq in H. cbn in H. congruence.
  - rewrite !repr_body_cons, <- !app_assoc in H.
    apply (char_form_inj_app q a b) in H;
      [| assumption | now apply repr_char_form | now apply repr_char_form].
    destruct H as [-> H]. apply IH in H; [|assumption].
    now destruct H as [-> ->].
Qed.

Lemma repr_str_inj_app (s1 s2 r1 r2 : pystr) :
  valid_str s1 -> valid_str s2 ->
  repr_str s1 ++ r1 = repr_str s2 ++ r2 -> s1 = s2 /\ r1 = r2.
Proof.
  intros Hv1 Hv2 H. unfold repr_str in H. cbn [app] in H.
  injection H as Hq H. rewrite <- Hq, <- !app_assoc in H. cbn [app] in H.
  eapply repr_body_inj_app; eauto using repr_quote_is_quote.
Qed.

Lemma repr_str_head (s : pystr) :
  exists q t, repr_str s = q :: t /\ is_quote q.
Proof. unfold repr_str. eauto using repr_quote_is_quote. Qed.

(** ** [repr] of a tuple of strings can be read back *)

Lemma repr_items_cons2 (x y : pystr) (l : list pystr) :
  repr_items (x :: y :: l) = repr_str x ++ lit ", " ++ repr_items (y :: l).
Proof. reflexivity. Qed.

Lemma repr_items_head_not_end (x : pystr) (l : list pystr) (r1 r2 : pystr) :
  tuple_end r1 -> r1 <> repr_items (x :: l) ++ r2.
Proof.
  intros Hend H.
  destruct (repr_str_head x) as (q & t & Hx & Hq).
  assert (exists t', repr_items (x :: l) ++ r2 = q :: t') as [t' Ht'].
  { destruct l; [cbn [repr_items]|rewrite repr_items_cons2];
      rewrite Hx; cbn [app]; eauto. }
  rewrite Ht' in H. unfold is_quote, SQUOTE, DQUOTE in Hq.
  destruct Hend as [[u ->]|[u ->]]; injection H; intros; lia.
Qed.

Lemma repr_items_inj_app (l1 l2 : list pystr) (r1 r2 : pystr) :
  Forall valid_str l1 -> Forall valid_str l2 ->
  tuple_end r1 -> tuple_end r2 ->
  repr_items l1 ++ r1 = repr_items l2 ++ r2 -> l1 = l2 /\ r1 = r2.
Proof.
  intros Hv1. revert l2.
  induction Hv1 as [|a l1 Ha Hv1 IH]; intros l2 Hv2 He1 He2 H;
    destruct Hv2 as [|b l2 Hb Hv2].
  - cbn in H. auto.
  - exfalso. exact (repr_items_head_not_end b l2 r1 r2 He1 H).
  - exfalso. exact (repr_items_head_not_end a l1 r2 r1 He2 (eq_sym H)).
  - destruct l1 as [|a' l1], l2 as [|b' l2].
    + cbn [repr_items] in H. apply repr_str_inj_app in H; try assumption.
      now destruct H as [-> ->].
    + exfalso. rewrite repr_items_cons2 in H. cbn [repr_items] in H.
      rewrite <- app_assoc in H.
      apply repr_str_inj_app in H; try assumption. destruct H as [_ ->].
      destruct He1 as [[u Hu]|[u Hu]]; cbn in Hu; discriminate.
    + exfalso. rewrite repr_items_cons2 in H. cbn [repr_items] in H.
      rewrite <- app_assoc in H.
      apply repr_str_inj_app in H; try assumption. destruct H as [_ <-].
      destruct He2 as [[u Hu]|[u Hu]]; cbn in Hu; discriminate.
    + rewrite !repr_items_cons2, <- !app_assoc in H.
      apply repr_str_inj_app in H; try assumption. destruct H as [-> H].
      apply app_inv_head in H. apply IH in H; try assumption.
      now destruct H as [-> ->].
Qed.

Lemma repr_tuple_inj_app (l1 l2 : list pystr) (r1 r2 : pystr) :
  Forall valid_str l1 -> Forall valid_str l2 ->
  repr_tuple l1 ++ r1 = repr_tuple l2 ++ r2 -> l1 = l2 /\ r1 = r2.
Proof.
  intros Hv1 Hv2 H. unfold repr_tuple in H.
  rewrite <- !app_assoc in H. apply app_inv_head in H.
  apply repr_items_inj_app in H; try assumption.
  - destruct H as [-> H]. split; [reflexivity|].
    now do 2 apply app_inv_head in H.
  - destruct (length l1 =? 1)%nat; cbn; unfold tuple_end; eauto.
  - destruct (length l2 =? 1)%nat; cbn; unfold tuple_end; eauto.
Qed.

Lemma str_bool_inj (b1 b2 : bool) : str_bool b1 = str_bool b2 -> b1 = b2.
Proof. destruct b1, b2; cbn; congruence. Qed.

Lemma category_id_for_inj (t1 t2 : list pystr) (b1 b2 : bool) :
  Forall valid_str t1 -> Forall valid_str t2 ->
  category_id_for t1 b1 = category_id_for t2 b2 -> t1 = t2 /\ b1 = b2.
Proof.
  intros Hv1 Hv2 H. unfold category_id_for in H.
  do 2 apply app_inv_head in H.
  apply repr_tuple_inj_app in H; try assumption.
  destruct H as [-> H]. apply app_inv_head in H.
  auto using str_bool_inj.
Qed.
(** ** The delegate *)

Lemma notification_for_nid_found (st : State) (nid : pystr) (n : Notification) :
  _notification_for_nid st !! nid = Some n ->
  notification_for_nid nid st = (Ok n, st).
Proof. intros H. unfold notification_for_nid, bind, gets, ret. now rewrite H. Qed.

Lemma notification_for_nid_missing (st : State) (nid : pystr) :
  _notification_for_nid st !! nid = None ->
  notification_for_nid nid st = (Raise (KeyError nid), st).
Proof. intros H. unfold notification_for_nid, bind, gets, raise. now rewrite H. Qed.

Lemma handler_missing (st : State) (response : UNNotificationResponse) :
  _notification_for_nid st !! response_identifier response = None ->
  userNotificationCenter_didReceiveNotificationResponse_withCompletionHandler_
    response st
  = (Raise (KeyError (response_identifier response)), st).
Proof.
  intros H.
  unfold userNotificationCenter_didReceiveNotificationResponse_withCompletionHandler_.
  unfold bind at 1. now rewrite (notification_for_nid_missing _ _ H).
Qed.

(** C1, as amended. An interaction event whose platform identifier is not
    a key of the lookup mapping invokes no callback, but it is not dropped
    silently: subscripting the mapping raises [KeyError], which leaves the
    handler with the state (and so the trace) untouched. *)
Theorem unknown_identifier_raises_KeyError
    (st : State) (response : UNNotificationResponse) :
  _notification_for_nid st !! response_identifier response = None ->
  let run :=
    userNotificationCenter_didReceiveNotificationResponse_withCompletionHandler_
      response st in
  run.1 = Raise (KeyError (response_identifier response)) /\
  run.2 = st /\
  callbacks (trace run.2) = callbacks (trace st).
Proof.
  intros H. cbv zeta. rewrite (handler_missing st response H).
  repeat split; reflexivity.
Qed.

Lemma handler_found (st : State) (response : UNNotificationResponse) (n : Notification) :
  _notification_for_nid st !! response_identifier response = Some n ->
  userNotificationCenter_didReceiveNotificationResponse_withCompletionHandler_
    response st
  = (invoke_callback n response ;; emit CompletionHandler) st.
Proof.
  intros H.
  unfold userNotificationCenter_didReceiveNotificationResponse_withCompletionHandler_.
  unfold bind at 1. now rewrite (notification_for_nid_found _ _ _ H).
Qed.

Lemma call_run (cb : Callback) (st : State) :
  call cb st
  = (if cb_raises cb then Raise (CallbackError (cb_tag cb)) else Ok tt,
     set_trace (trace st ++ [Called (cb_tag cb)]) st).
Proof. unfold call, bind, emit, modify. now destruct (cb_raises cb). Qed.

Lemma call_with_run (cb : ReplyCallback) (text : pystr) (st : State) :
  call_with cb text st
  = (if rcb_raises cb text then Raise (CallbackError (rcb_tag cb)) else Ok tt,
     set_trace (trace st ++ [CalledWith (rcb_tag cb) text]) st).
Proof. unfold call_with, bind, emit, modify. now destruct (rcb_raises cb text). Qed.

Lemma completions_app (t1 t2 : list Event) :
  completions (t1 ++ t2) = (completions t1 + completions t2)%nat.
Proof. unfold completions. now rewrite List.filter_app, length_app. Qed.

Lemma callbacks_app (t1 t2 : list Event) :
  callbacks (t1 ++ t2) = callbacks t1 ++ callbacks t2.
Proof. apply List.filter_app. Qed.

(** Dispatch either does nothing, or calls one callback, which returns or
    raises. *)
Lemma invoke_callback_shape (n : Notification) (response : UNNotificationResponse)
    (st : State) :
  invoke_callback n response st = (Ok tt, st) \/
  exists ev, is_callback ev = true /\
    (invoke_callback n response st).2 = set_trace (trace st ++ [ev]) st /\
    ((invoke_callback n response st).1 = Ok tt \/
     exists tag, (invoke_callback n response st).1 = Raise (CallbackError tag) /\
       (ev = Called tag \/ exists text, ev = CalledWith tag text)).
Proof.
  assert (Hcall : forall o : option Callback,
    call_if_set o st = (Ok tt, st) \/
    exists ev, is_callback ev = true /\
      (call_if_set o st).2 = set_trace (trace st ++ [ev]) st /\
      ((call_if_set o st).1 = Ok tt \/
       exists tag, (call_if_set o st).1 = Raise (CallbackError tag) /\
         (ev = Called tag \/ exists text, ev = CalledWith tag text))).
  { intros [cb|]; [right|now left]. cbn [call_if_set]. rewrite call_run.
    exists (Called (cb_tag cb)). split; [reflexivity|]. split; [reflexivity|].
    destruct (cb_raises cb); cbn [fst]; [right|now left].
    exists (cb_tag cb). split; [reflexivity|now left]. }
  unfold invoke_callback. repeat case_decide; try apply Hcall.
  destruct (on_replied n) as [f|]; [right|now left].
  rewrite call_with_run. exists (CalledWith (rcb_tag f) (userText response)).
  split; [reflexivity|]. split; [reflexivity|].
  destruct (rcb_raises f (userText response)); cbn [fst]; [right|now left].
  exists (rcb_tag f). split; [reflexivity|right; eauto].
Qed.

(** C2, as amended. The completion handler is called exactly once for an
    event whose handling returns, whether or not a callback existed. It is
    not called when the identifier lookup raises [KeyError] (the state is
    then untouched) or when the invoked callback raises: the handler calls
    it last and nothing catches an exception before. *)
Theorem completion_handler_once_unless_raised
    (st : State) (response : UNNotificationResponse) :
  let run :=
    userNotificationCenter_didReceiveNotificationResponse_withCompletionHandler_
      response st in
  match run.1 with
  | Ok _ =>
      is_Some (_notification_for_nid st !! response_identifier response) /\
      completions (trace run.2) = S (completions (trace st))
  | Raise (KeyError key) =>
      _notification_for_nid st !! response_identifier response = None /\
      key = response_identifier response /\ run.2 = st
  | Raise (CallbackError tag) =>
      is_Some (_notification_for_nid st !! response_identifier response) /\
      completions (trace run.2) = completions (trace st) /\
      (last (trace run.2) = Some (Called tag) \/
       exists text, last (trace run.2) = Some (CalledWith tag text))
  | Raise (RuntimeError _) => False
  end.
Proof.
  cbv zeta.
  destruct (_notification_for_nid st !! response_identifier response) as [n|] eqn:Hn.
  - rewrite (handler_found _ _ _ Hn). unfold bind.
    destruct (invoke_callback_shape n response st) as [H|(ev & Hev & Hst & Hres)].
    + rewrite H. unfold emit, modify. cbn [fst snd trace set_trace].
      split; [eauto|]. rewrite completions_app. cbn. lia.
    + destruct (invoke_callback n response st) as [res st'].
      cbn [fst snd] in Hst, Hres. subst st'.
      destruct Hres as [->|(tag & -> & Hlast)].
      * unfold emit, modify. cbn [fst snd trace set_trace].
        split; [eauto|]. rewrite !completions_app.
        destruct ev; cbn in *; try discriminate; lia.
      * cbn [fst snd trace set_trace].
        split; [eauto|]. rewrite completions_app, last_snoc.
        destruct Hlast as [->|[text ->]]; cbn; split; eauto; lia.
  - rewrite (handler_missing _ _ Hn). cbn. auto.
Qed.

(** C8. With the notification found, the action identifier is classified
    by equality with the reserved identifiers first and as a button title
    last: a default click calls [on_clicked] (if set) and nothing else,
    whatever the buttons are called; likewise dismiss and reply; only an
    identifier that is none of the three is looked up among the buttons. *)
Theorem dispatch_precedence
    (st : State) (response : UNNotificationResponse) (n : Notification) :
  _notification_for_nid st !! response_identifier response = Some n ->
  let st' :=
    (userNotificationCenter_didReceiveNotificationResponse_withCompletionHandler_
       response st).2 in
  let action := actionIdentifier response in
  exists evs, trace st' = trace st ++ evs /\
    (action = UNNotificationDefaultActionIdentifier ->
     callbacks evs =
       match on_clicked n with Some cb => [Called (cb_tag cb)] | None => [] end) /\
    (action = UNNotificationDismissActionIdentifier ->
     callbacks evs =
       match on_dismissed n with Some cb => [Called (cb_tag cb)] | None => [] end) /\
    (action = ReplyActionIdentifier ->
     callbacks evs =
       match on_replied n with
       | Some f => [CalledWith (rcb_tag f) (userText response)]
       | None => []
       end) /\
    (action <> UNNotificationDefaultActionIdentifier ->
     action <> UNNotificationDismissActionIdentifier ->
     action <> ReplyActionIdentifier ->
     callbacks evs =
       match dict_get (buttons n) action with
       | Some cb => [Called (cb_tag cb)]
       | None => []
       end).
Proof.
  intros Hn. cbv zeta. rewrite (handler_found _ _ _ Hn).
  assert (Hcall : forall o : option Callback,
    exists evs,
      trace ((call_if_set o ;; emit CompletionHandler) st).2 = trace st ++ evs /\
      callbacks evs = match o with Some cb => [Called (cb_tag cb)] | None => [] end).
  { intros [cb|]; unfold bind; cbn [call_if_set].
    - rewrite call_run. destruct (cb_raises cb); cbn.
      + now exists [Called (cb_tag cb)].
      + exists [Called (cb_tag cb); CompletionHandler].
        now rewrite <- app_assoc.
    - cbn. now exists [CompletionHandler]. }
  assert (Hreply : exists evs,
    trace ((match on_replied n with
            | Some f => call_with f (userText response)
            | None => ret tt
            end ;; emit CompletionHandler) st).2 = trace st ++ evs /\
    callbacks evs =
      match on_replied n with
      | Some f => [CalledWith (rcb_tag f) (userText response)]
      | None => []
      end).
  { destruct (on_replied n) as [f|]; unfold bind.
    - rewrite call_with_run. destruct (rcb_raises f (userText response)); cbn.
      + now exists [CalledWith (rcb_tag f) (userText response)].
      + exists [CalledWith (rcb_tag f) (userText response); CompletionHandler].
        now rewrite <- app_assoc.
    - cbn. now exists [CompletionHandler]. }
  assert (Hne1 : UNNotificationDismissActionIdentifier
                 <> UNNotificationDefaultActionIdentifier) by (vm_compute; discriminate).
  assert (Hne2 : ReplyActionIdentifier
                 <> UNNotificationDefaultActionIdentifier) by (vm_compute; discriminate).
  assert (Hne3 : ReplyActionIdentifier
                 <> UNNotificationDismissActionIdentifier) by (vm_compute; discriminate).
  unfold bind at 1. unfold invoke_callback.
  destruct (decide (actionIdentifier response = UNNotificationDefaultActionIdentifier))
    as [Ha|Ha].
  { destruct (Hcall (on_clicked n)) as (evs & Ht & Hc). exists evs.
    split; [exact Ht|]. repeat split; intros; congruence. }
  destruct (decide (actionIdentifier response = UNNotificationDismissActionIdentifier))
    as [Hb|Hb].
  { destruct (Hcall (on_dismissed n)) as (evs & Ht & Hc). exists evs.
    split; [exact Ht|]. repeat split; intros; congruence. }
  destruct (decide (actionIdentifier response = ReplyActionIdentifier)) as [Hc|Hc].
  { destruct Hreply as (evs & Ht & Hr). exists evs.
    split; [exact Ht|]. repeat split; intros; congruence. }
  destruct (Hcall (dict_get (buttons n) (actionIdentifier response)))
    as (evs & Ht & Hcb).
  exists evs. split; [exact Ht|]. repeat split; intros; congruence.
Qed.
(** ** The backend *)

Lemma Ok_inj {A} (a b : A) : Ok a = Ok b -> a = b.
Proof. congruence. Qed.

Lemma has_authorisation_run (st : State) :
  has_authorisation st
  = (Ok (status_authorized (authorizationStatus st)),
     set_trace (trace st ++ [GetNotificationSettings]) st).
Proof. reflexivity. Qed.

Lemma set_trace_nil (st : State) :
  set_categories (categories st) (set_trace (trace st ++ []) st) = st.
Proof. destruct st. unfold set_categories, set_trace. cbn. now rewrite app_nil_r. Qed.

(** Category resolution never raises. It leaves everything but the
    registered categories and the trace as it was; the categories only
    grow, and the one update it may issue registers exactly the grown set. *)
Lemma create_category_spec (n : Notification) (st : State) :
  exists evs cats,
    _create_category_for_notification n st
    = (Ok (if negb (dict_bool (buttons n) || reply_field n) then None
           else Some (category_id_for (dict_keys (buttons n)) (reply_field n))),
       set_categories cats (set_trace (trace st ++ evs) st)) /\
    categories st ⊆ cats /\
    (evs = [] /\ cats = categories st \/
     dict_bool (buttons n) || reply_field n = true /\
     (evs = [GetNotificationCategories] /\ cats = categories st \/
      evs = [GetNotificationCategories; SetNotificationCategories cats])).
Proof.
  unfold _create_category_for_notification.
  destruct (dict_bool (buttons n) || reply_field n) eqn:Hshape; cbn [negb].
  - unfold bind at 1.
    change (_get_notification_categories st)
      with (Ok (categories st), set_trace (trace st ++ [GetNotificationCategories]) st).
    cbv iota beta. unfold bind at 1. case_decide.
    + exists [GetNotificationCategories], (categories st).
      split; [|split; [reflexivity|right; auto]].
      reflexivity.
    + eexists [GetNotificationCategories; SetNotificationCategories _], _.
      split; [|split; [|right; split; [reflexivity|right; reflexivity]]].
      * unfold setNotificationCategories, bind, emit, modify, ret.
        cbn [trace set_trace]. rewrite <- app_assoc. reflexivity.
      * set_solver.
  - exists [], (categories st). rewrite set_trace_nil. unfold ret. auto.
Qed.
(** What an authorised [_send] does: the settings query, a fresh
    identifier unless one is reused, category resolution, and the
    submission of one request, whose outcome decides the result. *)
Lemma send_authorised_run (n : Notification) (r : option Notification) (st : State) :
  status_authorized (authorizationStatus st) = true ->
  exists evs cats,
    let nid :=
      match r with
      | Some replaced => str_identifier (identifier replaced)
      | None => uuid_source st (uuid_count st)
      end in
    let cat :=
      if negb (dict_bool (buttons n) || reply_field n) then None
      else Some (category_id_for (dict_keys (buttons n)) (reply_field n)) in
    let request :=
      {| request_identifier := nid; request_content := notification_content n cat |} in
    let error := error_description (add_request_error st request) in
    _send n r st
    = (if bool_decide (error = lit "") then Ok nid else Raise (RuntimeError error),
       set_uuid_count
         (match r with Some _ => uuid_count st | None => S (uuid_count st) end)
         (set_categories cats
            (set_trace
               (trace st ++ GetNotificationSettings :: evs
                  ++ [AddNotificationRequest request]) st))) /\
    categories st ⊆ cats /\
    (evs = [] /\ cats = categories st \/
     dict_bool (buttons n) || reply_field n = true /\
     (evs = [GetNotificationCategories] /\ cats = categories st \/
      evs = [GetNotificationCategories; SetNotificationCategories cats])).
Proof.
  intros Hauth. unfold _send. unfold bind at 1.
  rewrite has_authorisation_run, Hauth. cbn [negb].
  unfold bind at 1.
  set (st0 := set_trace (trace st ++ [GetNotificationSettings]) st).
  set (st1 := match r with
              | Some _ => st0
              | None => set_uuid_count (S (uuid_count st)) st0
              end).
  destruct (create_category_spec n st1) as (evs & cats & Hrun & Hsub & Hshape).
  assert (Hcats : categories st1 = categories st) by (now destruct r).
  rewrite Hcats in Hsub, Hshape.
  exists evs, cats. cbv zeta. split; [|split; [exact Hsub|exact Hshape]].
  assert (Hnid :
    match r with
    | Some replaced => ret (str_identifier (identifier replaced))
    | None => uuid4
    end st0
    = (Ok match r with
          | Some replaced => str_identifier (identifier replaced)
          | None => uuid_source st (uuid_count st)
          end, st1)) by (now destruct r).
  rewrite Hnid. unfold bind at 1. rewrite Hrun.
  unfold addNotificationRequest, emit, modify, gets, ret, raise, bind.
  assert (Herr : add_request_error st1 = add_request_error st) by (now destruct r).
  assert (Htrace : trace st1 = trace st ++ [GetNotificationSettings]) by (now destruct r).
  cbn [trace set_trace set_categories add_request_error].
  rewrite Herr, Htrace, <- !app_assoc. cbn [app].
  destruct r; subst st1 st0;
      destruct (bool_decide _); reflexivity.
Qed.
Lemma send_unauthorised_run (n : Notification) (r : option Notification) (st : State) :
  status_authorized (authorizationStatus st) = false ->
  _send n r st
  = (Raise (RuntimeError (lit "Not authorised")),
     set_trace (trace st ++ [GetNotificationSettings]) st).
Proof.
  intros Hauth. unfold _send. unfold bind at 1.
  now rewrite has_authorisation_run, Hauth.
Qed.

(** C4. Without authorisation [_send] raises the runtime error ["Not
    authorised"] right after the settings query: the trace gains that
    query and nothing else (no category query, no category registration,
    no request), and the registered categories and the lookup mapping are
    as before. *)
Theorem send_unauthorised_raises
    (n : Notification) (r : option Notification) (st : State) :
  status_authorized (authorizationStatus st) = false ->
  let st' := (_send n r st).2 in
  (_send n r st).1 = Raise (RuntimeError (lit "Not authorised")) /\
  trace st' = trace st ++ [GetNotificationSettings] /\
  categories st' = categories st /\
  _notification_for_nid st' = _notification_for_nid st.
Proof.
  intros Hauth. cbv zeta. rewrite (send_unauthorised_run n r st Hauth).
  repeat split; reflexivity.
Qed.

(** C5. An authorised [_send] submits one request and raises a runtime
    error exactly when the notification centre reports a non-empty error
    description for it; that description is the error's message. With an
    empty description it returns the identifier of the submitted request. *)
Theorem send_raises_iff_error_reported
    (n : Notification) (r : option Notification) (st : State) :
  status_authorized (authorizationStatus st) = true ->
  exists request,
    last (trace (_send n r st).2) = Some (AddNotificationRequest request) /\
    let error := error_description (add_request_error st request) in
    ((exists e, (_send n r st).1 = Raise e) <-> error <> lit "") /\
    (error <> lit "" -> (_send n r st).1 = Raise (RuntimeError error)) /\
    (error = lit "" -> (_send n r st).1 = Ok (request_identifier request)).
Proof.
  intros Hauth.
  destruct (send_authorised_run n r st Hauth) as (evs & cats & Hrun & _).
  cbv zeta in Hrun. rewrite Hrun. eexists. split.
  { cbn [snd trace set_uuid_count set_categories set_trace].
    rewrite app_comm_cons, app_assoc. apply last_snoc. }
  cbv zeta. cbn [fst request_identifier].
  case_bool_decide as Herr.
  - repeat split; try congruence. intros [e He]. discriminate.
  - repeat split; try congruence. eauto.
Qed.

(** C7. The category key is a function of the button titles, in order,
    and the reply-field flag alone, and different titles or flags give
    different keys: two notifications resolve to the same key exactly when
    they agree on both. (Titles are Python strings: code points up to
    U+10FFFF.) *)
Theorem category_key_deterministic_and_injective
    (n1 n2 : Notification) (st1 st2 : State) :
  Forall valid_str (dict_keys (buttons n1)) ->
  Forall valid_str (dict_keys (buttons n2)) ->
  (_create_category_for_notification n1 st1).1
  = (_create_category_for_notification n2 st2).1
  <-> dict_keys (buttons n1) = dict_keys (buttons n2)
      /\ reply_field n1 = reply_field n2.
Proof.
  intros Hv1 Hv2.
  destruct (create_category_spec n1 st1) as (evs1 & cats1 & -> & _).
  destruct (create_category_spec n2 st2) as (evs2 & cats2 & -> & _).
  cbn [fst].
  assert (Hbool : forall d : pydict Callback,
            dict_bool d = false <-> dict_keys d = []).
  { intros [|[k v] d]; cbn; split; congruence. }
  split.
  - intros H. apply Ok_inj in H.
    destruct (dict_bool (buttons n1) || reply_field n1) eqn:H1,
             (dict_bool (buttons n2) || reply_field n2) eqn:H2;
      cbn [negb] in H; try discriminate.
    + apply (inj Some) in H. now apply category_id_for_inj in H.
    + apply orb_false_iff in H1, H2. destruct H1 as [H1 ->], H2 as [H2 ->].
      apply Hbool in H1, H2. now rewrite H1, H2.
  - intros [Hk Hr].
    assert (Hd : dict_bool (buttons n1) = dict_bool (buttons n2)).
    { destruct (dict_bool (buttons n2)) eqn:H2.
      - apply not_false_iff_true. rewrite Hbool, Hk, <- Hbool. congruence.
      - apply Hbool. rewrite Hk. now apply Hbool. }
    now rewrite Hd, Hk, Hr.
Qed.

(** C9. When [send] returns an identifier, the lookup mapping holds the
    notification under that identifier. *)
Theorem send_records_identifier
    (n : Notification) (r : option Notification) (st st' : State) (nid : pystr) :
  send n r st = (Ok nid, st') ->
  _notification_for_nid st' !! nid = Some n.
Proof.
  unfold send. unfold bind at 1.
  destruct (_send n r st) as [[x|e] st1]; [|discriminate].
  unfold bind, modify, ret. intros H. injection H as <- <-.
  cbn. apply lookup_insert_eq.
Qed.

(** C10. A notification with no buttons and no reply field resolves to no
    category: the result is [None] and nothing is asked of or registered
    with the notification centre. An authorised [_send] then submits the
    request, right after the settings query, with no category identifier. *)
Theorem no_category_without_buttons_or_reply
    (n : Notification) (r : option Notification) (st : State) :
  buttons n = [] -> reply_field n = false ->
  _create_category_for_notification n st = (Ok None, st) /\
  (status_authorized (authorizationStatus st) = true ->
   exists request,
     trace (_send n r st).2
     = trace st ++ [GetNotificationSettings; AddNotificationRequest request] /\
     content_categoryIdentifier (request_content request) = None).
Proof.
  intros Hb Hr. split.
  - unfold _create_category_for_notification. now rewrite Hb, Hr.
  - intros Hauth.
    destruct (send_authorised_run n r st Hauth) as (evs & cats & Hrun & _ & Hshape).
    cbv zeta in Hrun. rewrite Hrun. rewrite Hb, Hr in *. cbn in Hshape.
    destruct Hshape as [[-> _]|[? _]]; [|discriminate].
    eexists. split; reflexivity.
Qed.
(** C3, as amended. After construction the backend only adds categories:
    category resolution, and so [_send], leaves a superset of the
    categories registered before it, and every update it issues registers
    such a superset. Construction itself is not additive: [__init__]
    registers the empty set, whatever was registered before. *)
Theorem category_updates_additive_after_construction
    (n : Notification) (r : option Notification) (st : State) :
  (categories st ⊆ categories (_create_category_for_notification n st).2 /\
   exists evs,
     trace (_create_category_for_notification n st).2 = trace st ++ evs /\
     forall cats, In (SetNotificationCategories cats) evs -> categories st ⊆ cats) /\
  (categories st ⊆ categories (_send n r st).2 /\
   exists evs,
     trace (_send n r st).2 = trace st ++ evs /\
     forall cats, In (SetNotificationCategories cats) evs -> categories st ⊆ cats) /\
  (categories (__init__ st).2 = ∅ /\
   trace (__init__ st).2 = trace st ++ [SetNotificationCategories ∅]).
Proof.
  assert (Hevs : forall (evs : list Event) (cats : gset UNNotificationCategory),
    categories st ⊆ cats ->
    (evs = [] /\ cats = categories st \/
     dict_bool (buttons n) || reply_field n = true /\
     (evs = [GetNotificationCategories] /\ cats = categories st \/
      evs = [GetNotificationCategories; SetNotificationCategories cats])) ->
    forall cats', In (SetNotificationCategories cats') evs -> categories st ⊆ cats').
  { intros evs cats Hsub Hshape cats' Hin.
    destruct Hshape as [[-> _]|[_ [[-> _]| ->]]]; cbn in Hin.
    - contradiction.
    - destruct Hin as [?|[]]; discriminate.
    - destruct Hin as [?|[Heq|[]]]; [discriminate|]. now injection Heq as <-. }
  split; [|split].
  - destruct (create_category_spec n st) as (evs & cats & -> & Hsub & Hshape).
    cbn [snd categories set_categories trace set_trace].
    split; [exact Hsub|]. exists evs. split; [reflexivity|]. eauto.
  - destruct (status_authorized (authorizationStatus st)) eqn:Hauth.
    + destruct (send_authorised_run n r st Hauth) as (evs & cats & Hrun & Hsub & Hshape).
      cbv zeta in Hrun. rewrite Hrun.
      cbn [snd categories set_categories set_uuid_count trace set_trace].
      split; [exact Hsub|]. eexists. split; [reflexivity|].
      intros cats' Hin. apply (Hevs evs cats Hsub Hshape).
      destruct Hin as [?|Hin]; [discriminate|].
      apply in_app_or in Hin. destruct Hin as [Hin|[?|[]]]; [exact Hin|discriminate].
    + rewrite (send_unauthorised_run n r st Hauth).
      cbn [snd categories set_trace trace]. split; [reflexivity|].
      eexists. split; [reflexivity|]. intros cats' [?|[]]. discriminate.
  - split; reflexivity.
Qed.

(** C6. Replacing a notification that was sent before reuses its platform
    identifier: the request is submitted under it and it is what [_send]
    returns. Without a notification to replace the identifier is the next
    one [uuid4] hands out, so two such calls, the second in any later state
    of the same generator, submit different identifiers as long as the
    generator does not repeat itself. *)
Theorem send_reuses_or_draws_fresh_identifier :
  (forall (n replaced : Notification) (nid : pystr) (st : State),
     status_authorized (authorizationStatus st) = true ->
     identifier replaced = Some nid ->
     exists request,
       last (trace (_send n (Some replaced) st).2)
       = Some (AddNotificationRequest request) /\
       request_identifier request = nid /\
       forall x, (_send n (Some replaced) st).1 = Ok x -> x = nid) /\
  (forall (n1 n2 : Notification) (st1 st2 : State),
     status_authorized (authorizationStatus st1) = true ->
     status_authorized (authorizationStatus st2) = true ->
     Inj (=) (=) (uuid_source st1) ->
     uuid_source st2 = uuid_source st1 ->
     (uuid_count (_send n1 None st1).2 <= uuid_count st2)%nat ->
     exists request1 request2,
       last (trace (_send n1 None st1).2) = Some (AddNotificationRequest request1) /\
       last (trace (_send n2 None st2).2) = Some (AddNotificationRequest request2) /\
       (forall x, (_send n1 None st1).1 = Ok x -> x = request_identifier request1) /\
       (forall x, (_send n2 None st2).1 = Ok x -> x = request_identifier request2) /\
       request_identifier request1 <> request_identifier request2).
Proof.
  assert (Hlast : forall (t evs : list Event) (e0 e : Event),
            last (t ++ e0 :: evs ++ [e]) = Some e).
  { intros. rewrite app_comm_cons, app_assoc. apply last_snoc. }
  assert (Hok : forall (b : bool) (x nid e : pystr),
            (if b then Ok nid else Raise (RuntimeError e)) = Ok x -> x = nid).
  { intros [] ? ? ? H; congruence. }
  split.
  - intros n replaced nid st Hauth Hid.
    destruct (send_authorised_run n (Some replaced) st Hauth)
      as (evs & cats & Hrun & _).
    cbv zeta in Hrun. rewrite Hrun, Hid. cbn [str_identifier].
    eexists. split; [apply Hlast|]. split; [reflexivity|].
    intros x. cbn [fst]. apply Hok.
  - intros n1 n2 st1 st2 Hauth1 Hauth2 Hinj Hsrc Hlater.
    destruct (send_authorised_run n1 None st1 Hauth1) as (evs1 & cats1 & Hrun1 & _).
    destruct (send_authorised_run n2 None st2 Hauth2) as (evs2 & cats2 & Hrun2 & _).
    cbv zeta in Hrun1, Hrun2. rewrite Hrun1 in *. rewrite Hrun2.
    cbn [snd uuid_count set_uuid_count] in Hlater.
    eexists. eexists. split; [apply Hlast|]. split; [apply Hlast|].
    cbn [fst request_identifier].
    split; [intros x; apply Hok|]. split; [intros x; apply Hok|].
    rewrite Hsrc. intros Heq. apply Hinj in Heq. lia.
Qed.
(** ** Category resolution: further properties *)

Lemma category_id_registered (st : State) (key : pystr) :
  key ∈ (set_map category_identifier (categories st) : gset pystr)
  <-> exists c, c ∈ categories st /\ category_identifier c = key.
Proof.
  rewrite elem_of_map. split; intros (c & H1 & H2); exists c; auto.
Qed.

Lemma create_category_present (n : Notification) (st : State) :
  dict_bool (buttons n) || reply_field n = true ->
  category_id_for (dict_keys (buttons n)) (reply_field n)
    ∈ (set_map category_identifier (categories st) : gset pystr) ->
  _create_category_for_notification n st
  = (Ok (Some (category_id_for (dict_keys (buttons n)) (reply_field n))),
     set_trace (trace st ++ [GetNotificationCategories]) st).
Proof.
  intros Hshape Hin. unfold _create_category_for_notification.
  rewrite Hshape. cbn [negb]. unfold bind at 1.
  change (_get_notification_categories st)
    with (Ok (categories st), set_trace (trace st ++ [GetNotificationCategories]) st).
  cbv iota beta. unfold bind at 1. rewrite decide_True by exact Hin. reflexivity.
Qed.

Lemma create_category_absent (n : Notification) (st : State) :
  dict_bool (buttons n) || reply_field n = true ->
  category_id_for (dict_keys (buttons n)) (reply_field n)
    ∉ (set_map category_identifier (categories st) : gset pystr) ->
  _create_category_for_notification n st
  = (Ok (Some (category_id_for (dict_keys (buttons n)) (reply_field n))),
     set_categories (categories st ∪ {[ new_category_for n ]})
       (set_trace
          (trace st ++
             [GetNotificationCategories;
              SetNotificationCategories (categories st ∪ {[ new_category_for n ]})])
          st)).
Proof.
  intros Hshape Hin. unfold _create_category_for_notification.
  rewrite Hshape. cbn [negb]. unfold bind at 1.
  change (_get_notification_categories st)
    with (Ok (categories st), set_trace (trace st ++ [GetNotificationCategories]) st).
  cbv iota beta. unfold bind at 1. rewrite decide_False by exact Hin.
  unfold setNotificationCategories, bind, emit, modify, ret.
  cbn [trace set_trace]. rewrite <- app_assoc. reflexivity.
Qed.

Lemma category_resolution_registered_after (n : Notification) (st : State) :
  dict_bool (buttons n) || reply_field n = true ->
  (_create_category_for_notification n st).1
  = Ok (Some (category_id_for (dict_keys (buttons n)) (reply_field n))) /\
  category_id_for (dict_keys (buttons n)) (reply_field n)
    ∈ (set_map category_identifier
         (categories (_create_category_for_notification n st).2) : gset pystr).
Proof.
  intros Hshape.
  destruct (decide (category_id_for (dict_keys (buttons n)) (reply_field n)
                    ∈ (set_map category_identifier (categories st) : gset pystr)))
    as [Hin|Hnotin].
  - rewrite (create_category_present n st Hshape Hin). cbn [fst snd]. auto.
  - rewrite (create_category_absent n st Hshape Hnotin). cbn [fst snd].
    split; [reflexivity|]. apply category_id_registered.
    exists (new_category_for n). split; [|reflexivity].
    cbn [categories set_categories]. set_solver.
Qed.

(** X1. A registered category with the derived identifier is reused as it
    is, whatever its actions are: resolution returns the identifier after
    the one query and registers nothing. *)
Theorem category_reused_when_registered
    (n : Notification) (st : State) (c : UNNotificationCategory) :
  dict_bool (buttons n) || reply_field n = true ->
  c ∈ categories st ->
  category_identifier c = category_id_for (dict_keys (buttons n)) (reply_field n) ->
  _create_category_for_notification n st
  = (Ok (Some (category_identifier c)),
     set_trace (trace st ++ [GetNotificationCategories]) st).
Proof.
  intros Hshape Hc Hid. rewrite Hid. apply create_category_present; [exact Hshape|].
  apply category_id_registered. eauto.
Qed.

(** X2. When no registered category has the derived identifier, resolution
    registers the categories it queried plus exactly one new category: the
    notification's, with the key as identifier. The registered set grows by
    one and the update follows the query. *)
Theorem category_registered_when_absent (n : Notification) (st : State) :
  dict_bool (buttons n) || reply_field n = true ->
  (forall c, c ∈ categories st ->
     category_identifier c <> category_id_for (dict_keys (buttons n)) (reply_field n)) ->
  let run := _create_category_for_notification n st in
  run.1 = Ok (Some (category_id_for (dict_keys (buttons n)) (reply_field n))) /\
  categories run.2 = categories st ∪ {[ new_category_for n ]} /\
  size (categories run.2) = S (size (categories st)) /\
  trace run.2
  = trace st ++ [GetNotificationCategories;
                 SetNotificationCategories (categories run.2)].
Proof.
  intros Hshape Habsent. cbv zeta.
  assert (Hnotin : category_id_for (dict_keys (buttons n)) (reply_field n)
                     ∉ (set_map category_identifier (categories st) : gset pystr)).
  { rewrite category_id_registered. intros (c & Hc & Hid). exact (Habsent c Hc Hid). }
  rewrite (create_category_absent n st Hshape Hnotin).
  cbn [fst snd categories set_categories trace set_trace].
  repeat split.
  rewrite size_union, size_singleton; [lia|].
  apply disjoint_singleton_r. intros Hin. exact (Habsent _ Hin eq_refl).
Qed.

(** X3. Whenever resolution returns a key, a category with that identifier
    is registered afterwards, be it found or newly registered. *)
Theorem category_resolution_registers_key
    (n : Notification) (st : State) (key : pystr) :
  (_create_category_for_notification n st).1 = Ok (Some key) ->
  exists c, c ∈ categories (_create_category_for_notification n st).2 /\
            category_identifier c = key.
Proof.
  destruct (dict_bool (buttons n) || reply_field n) eqn:Hshape.
  - destruct (decide (category_id_for (dict_keys (buttons n)) (reply_field n)
                      ∈ (set_map category_identifier (categories st) : gset pystr)))
      as [Hin|Hnotin].
    + rewrite (create_category_present n st Hshape Hin). cbn [fst snd].
      intros H. apply Ok_inj in H. apply (inj Some) in H. subst key.
      apply category_id_registered in Hin. exact Hin.
    + rewrite (create_category_absent n st Hshape Hnotin). cbn [fst snd].
      intros H. apply Ok_inj in H. apply (inj Some) in H. subst key.
      exists (new_category_for n). split; [|reflexivity].
      cbn [categories set_categories]. set_solver.
  - unfold _create_category_for_notification. rewrite Hshape. cbn. discriminate.
Qed.

(** X4. Resolution is idempotent across notifications of the same shape:
    once a notification was resolved, resolving one with the same button
    titles and reply flag returns the same key, registers nothing and
    leaves the registered categories alone. *)
Theorem category_resolution_idempotent (n n' : Notification) (st : State) :
  dict_keys (buttons n') = dict_keys (buttons n) ->
  reply_field n' = reply_field n ->
  let st1 := (_create_category_for_notification n st).2 in
  (_create_category_for_notification n' st1).1
  = (_create_category_for_notification n st).1 /\
  categories (_create_category_for_notification n' st1).2 = categories st1 /\
  category_updates (trace (_create_category_for_notification n' st1).2)
  = category_updates (trace st1).
Proof.
  intros Hkeys Hreply. cbv zeta.
  assert (Hbool : dict_bool (buttons n') = dict_bool (buttons n)).
  { destruct (buttons n') as [|[]], (buttons n) as [|[]]; cbn in *; congruence. }
  destruct (dict_bool (buttons n) || reply_field n) eqn:Hshape.
  - assert (Hshape' : dict_bool (buttons n') || reply_field n' = true)
      by (now rewrite Hbool, Hreply).
    destruct (category_resolution_registered_after n st Hshape) as (Hres & Hin).
    rewrite Hres.
    rewrite <- Hkeys, <- Hreply in Hin |- *.
    rewrite (create_category_present n' _ Hshape' Hin).
    cbn [fst snd categories trace set_trace]. repeat split.
    unfold category_updates. rewrite List.filter_app, length_app. cbn. lia.
  - assert (Hshape' : dict_bool (buttons n') || reply_field n' = false)
      by (now rewrite Hbool, Hreply).
    unfold _create_category_for_notification. rewrite Hshape, Hshape'.
    cbn. auto.
Qed.
(** ** [_send]: further properties *)

(** An authorised [_send] is category resolution, in the state reached
    after the settings query and the choice of the identifier, followed by
    the submission of one request. *)
Lemma send_authorised_resolution (n : Notification) (r : option Notification)
    (st : State) :
  status_authorized (authorizationStatus st) = true ->
  exists st1 request,
    categories st1 = categories st /\
    authorizationStatus st1 = authorizationStatus st /\
    trace st1 = trace st ++ [GetNotificationSettings] /\
    _send n r st
    = (if bool_decide (error_description (add_request_error st request) = lit "")
       then Ok (request_identifier request)
       else Raise (RuntimeError (error_description (add_request_error st request))),
       set_trace
         (trace (_create_category_for_notification n st1).2
            ++ [AddNotificationRequest request])
         (_create_category_for_notification n st1).2).
Proof.
  intros Hauth.
  set (st0 := set_trace (trace st ++ [GetNotificationSettings]) st).
  set (st1 := match r with
              | Some _ => st0
              | None => set_uuid_count (S (uuid_count st)) st0
              end).
  exists st1,
    {| request_identifier :=
         match r with
         | Some replaced => str_identifier (identifier replaced)
         | None => uuid_source st (uuid_count st)
         end;
       request_content :=
         notification_content n
           (if negb (dict_bool (buttons n) || reply_field n) then None
            else Some (category_id_for (dict_keys (buttons n)) (reply_field n))) |}.
  split; [now destruct r|]. split; [now destruct r|]. split; [now destruct r|].
  unfold _send. unfold bind at 1.
  rewrite has_authorisation_run, Hauth. cbn [negb]. unfold bind at 1.
  assert (Hnid :
    match r with
    | Some replaced => ret (str_identifier (identifier replaced))
    | None => uuid4
    end st0
    = (Ok match r with
          | Some replaced => str_identifier (identifier replaced)
          | None => uuid_source st (uuid_count st)
          end, st1)) by (now destruct r).
  fold st0. rewrite Hnid. unfold bind at 1.
  destruct (create_category_spec n st1) as (evs & cats & Hrun & _).
  rewrite Hrun.
  unfold addNotificationRequest, emit, modify, gets, ret, raise, bind.
  assert (Herr : add_request_error st1 = add_request_error st) by (now destruct r).
  cbn [fst snd trace set_trace set_categories add_request_error request_identifier].
  rewrite Herr. destruct (bool_decide _); reflexivity.
Qed.

(** X5. [_send] submits exactly one request when authorisation is granted
    and none when it is not, whatever else happens. *)
Theorem send_submits_one_request_iff_authorised
    (n : Notification) (r : option Notification) (st : State) :
  submissions (trace (_send n r st).2)
  = (submissions (trace st)
     + if status_authorized (authorizationStatus st) then 1 else 0)%nat.
Proof.
  destruct (status_authorized (authorizationStatus st)) eqn:Hauth.
  - destruct (send_authorised_run n r st Hauth) as (evs & cats & Hrun & _ & Hshape).
    cbv zeta in Hrun. rewrite Hrun.
    cbn [snd trace set_uuid_count set_categories set_trace].
    unfold submissions. rewrite List.filter_app, length_app.
    destruct Hshape as [[-> _]|[_ [[-> _]| ->]]]; cbn; lia.
  - rewrite (send_unauthorised_run n r st Hauth).
    cbn [snd trace set_trace]. unfold submissions.
    rewrite List.filter_app, length_app. cbn. lia.
Qed.

(** X6. [_send] never writes the lookup mapping, and it leaves the
    notification centre's authorisation alone; it draws from [uuid4]
    exactly once when it is authorised and replaces nothing, and not at
    all otherwise. *)
Theorem send_frame (n : Notification) (r : option Notification) (st : State) :
  let st' := (_send n r st).2 in
  _notification_for_nid st' = _notification_for_nid st /\
  authorizationStatus st' = authorizationStatus st /\
  uuid_count st'
  = (uuid_count st
     + match r with
       | Some _ => 0
       | None => if status_authorized (authorizationStatus st) then 1 else 0
       end)%nat.
Proof.
  cbv zeta. destruct (status_authorized (authorizationStatus st)) eqn:Hauth.
  - destruct (send_authorised_run n r st Hauth) as (evs & cats & Hrun & _).
    cbv zeta in Hrun. rewrite Hrun.
    cbn [snd _notification_for_nid authorizationStatus uuid_count
         set_uuid_count set_categories set_trace].
    repeat split. destruct r; lia.
  - rewrite (send_unauthorised_run n r st Hauth).
    cbn [snd _notification_for_nid authorizationStatus uuid_count set_trace].
    repeat split. destruct r; lia.
Qed.

(** X7. Notifications of the same shape share one registration: after a
    [_send], a further [_send] of a notification with the same button
    titles and reply flag issues no category update and leaves the
    registered categories as they are. *)
Theorem send_same_shape_registers_once
    (n1 n2 : Notification) (r1 r2 : option Notification) (st : State) :
  dict_keys (buttons n2) = dict_keys (buttons n1) ->
  reply_field n2 = reply_field n1 ->
  let st1 := (_send n1 r1 st).2 in
  categories (_send n2 r2 st1).2 = categories st1 /\
  category_updates (trace (_send n2 r2 st1).2) = category_updates (trace st1).
Proof.
  intros Hkeys Hreply. cbv zeta.
  assert (Hbool : dict_bool (buttons n2) = dict_bool (buttons n1)).
  { destruct (buttons n2) as [|[]], (buttons n1) as [|[]]; cbn in *; congruence. }
  destruct (status_authorized (authorizationStatus st)) eqn:Hauth.
  - destruct (send_authorised_resolution n1 r1 st Hauth)
      as (sa & req1 & Hcats1 & Hstat1 & _ & Hrun1).
    rewrite Hrun1. cbn [snd].
    set (st1 := set_trace _ _).
    assert (Hauth1 : status_authorized (authorizationStatus st1) = true).
    { subst st1. cbn [authorizationStatus set_trace].
      destruct (create_category_spec n1 sa) as (evs & cats & -> & _).
      cbn [snd authorizationStatus set_categories set_trace]. now rewrite Hstat1. }
    destruct (send_authorised_resolution n2 r2 st1 Hauth1)
      as (sb & req2 & Hcats2 & _ & Htrace2 & Hrun2).
    rewrite Hrun2. cbn [snd categories trace set_trace].
    destruct (dict_bool (buttons n1) || reply_field n1) eqn:Hshape.
    + assert (Hshape2 : dict_bool (buttons n2) || reply_field n2 = true)
        by (now rewrite Hbool, Hreply).
      destruct (category_resolution_registered_after n1 sa Hshape) as (_ & Hin).
      assert (Hin2 : category_id_for (dict_keys (buttons n2)) (reply_field n2)
                       ∈ (set_map category_identifier (categories sb) : gset pystr)).
      { rewrite Hkeys, Hreply, Hcats2. subst st1. exact Hin. }
      rewrite (create_category_present n2 sb Hshape2 Hin2).
      cbn [snd categories trace set_trace]. split; [exact Hcats2|].
      rewrite Htrace2. unfold category_updates.
      rewrite !List.filter_app, !length_app. cbn. lia.
    + assert (Hshape2 : dict_bool (buttons n2) || reply_field n2 = false)
        by (now rewrite Hbool, Hreply).
      assert (Hnone : _create_category_for_notification n2 sb = (Ok None, sb)).
      { unfold _create_category_for_notification. now rewrite Hshape2. }
      rewrite Hnone. cbn [snd]. split; [exact Hcats2|].
      rewrite Htrace2. unfold category_updates.
      rewrite !List.filter_app, !length_app. cbn. lia.
  - rewrite (send_unauthorised_run n1 r1 st Hauth). cbn [snd].
    rewrite (send_unauthorised_run n2 r2
               (set_trace (trace st ++ [GetNotificationSettings]) st) Hauth).
    cbn [snd categories trace set_trace]. split; [reflexivity|].
    unfold category_updates. rewrite !List.filter_app, !length_app. cbn. lia.
Qed.

(** X8. The request an authorised [_send] submits mirrors the
    notification: title, body, thread and sound are the notification's and
    the category is the resolved key. It carries at most one attachment,
    and none when the attachment path is missing or empty. *)
Theorem send_content_mirrors_notification
    (n : Notification) (r : option Notification) (st : State) :
  status_authorized (authorizationStatus st) = true ->
  exists request,
    last (trace (_send n r st).2) = Some (AddNotificationRequest request) /\
    content_title (request_content request) = title n /\
    content_body (request_content request) = message n /\
    content_threadIdentifier (request_content request) = thread n /\
    content_sound (request_content request) = sound n /\
    Ok (content_categoryIdentifier (request_content request))
    = (_create_category_for_notification n st).1 /\
    content_attachments (request_content request)
    = match attachment n with
      | None => []
      | Some path => if bool_decide (path = lit "") then [] else [path]
      end.
Proof.
  intros Hauth.
  destruct (send_authorised_run n r st Hauth) as (evs & cats & Hrun & _).
  cbv zeta in Hrun. rewrite Hrun. eexists. split.
  { cbn [snd trace set_uuid_count set_categories set_trace].
    rewrite app_comm_cons, app_assoc. apply last_snoc. }
  cbn [request_content notification_content content_title content_body
       content_threadIdentifier content_sound content_categoryIdentifier
       content_attachments].
  repeat split.
  - destruct (create_category_spec n st) as (evs' & cats' & -> & _). reflexivity.
  - destruct (attachment n) as [[|c path]|]; reflexivity.
Qed.

(** X9. Nothing is rolled back when the submission fails: after an
    authorised [_send] of a notification with buttons or a reply field,
    a category with its key is registered whether [_send] returned or
    raised. *)
Theorem send_leaves_category_registered
    (n : Notification) (r : option Notification) (st : State) :
  status_authorized (authorizationStatus st) = true ->
  dict_bool (buttons n) || reply_field n = true ->
  exists c, c ∈ categories (_send n r st).2 /\
    category_identifier c
    = category_id_for (dict_keys (buttons n)) (reply_field n).
Proof.
  intros Hauth Hshape.
  destruct (send_authorised_resolution n r st Hauth) as (st1 & req & _ & _ & _ & Hrun).
  rewrite Hrun. cbn [snd categories set_trace].
  destruct (category_resolution_registered_after n st1 Hshape) as (_ & Hin).
  now apply category_id_registered in Hin.
Qed.

(** X10. A backend that was just constructed starts from no category: the
    first resolution of a notification with buttons or a reply field
    after [__init__] leaves exactly that notification's category
    registered, whatever was registered before construction. *)
Theorem first_resolution_after_init (n : Notification) (st : State) :
  dict_bool (buttons n) || reply_field n = true ->
  categories ((__init__ ;; _create_category_for_notification n) st).2
  = {[ new_category_for n ]}.
Proof.
  intros Hshape. unfold bind.
  change (__init__ st)
    with (Ok tt, set_categories ∅
                   (set_trace (trace st ++ [SetNotificationCategories ∅]) st)).
  cbv iota beta.
  rewrite create_category_absent; [|exact Hshape|].
  - cbn [snd categories set_categories]. apply (left_id_L ∅ (∪)).
  - rewrite category_id_registered. cbn [categories set_categories].
    intros (c & Hc & _). exact (not_elem_of_empty c Hc).
Qed.
(** ** The delegate: further properties *)

Lemma set_trace_app_nil (st : State) : set_trace (trace st ++ []) st = st.
Proof. destruct st. unfold set_trace. cbn. now rewrite app_nil_r. Qed.

(** What dispatch does is decided by the notification and the response
    alone: it adds no event, or the call of one callback. *)
Lemma invoke_callback_run (n : Notification) (response : UNNotificationResponse) :
  exists res evs,
    (res = Ok tt /\ evs = [] \/ exists ev, evs = [ev] /\ is_callback ev = true) /\
    forall st, invoke_callback n response st = (res, set_trace (trace st ++ evs) st).
Proof.
  assert (Hcall : forall o : option Callback,
    exists res evs,
      (res = Ok tt /\ evs = [] \/ exists ev, evs = [ev] /\ is_callback ev = true) /\
      forall st, call_if_set o st = (res, set_trace (trace st ++ evs) st)).
  { intros [cb|].
    - eexists _, [Called (cb_tag cb)]. split; [right; eauto|].
      intros st. cbn [call_if_set]. apply call_run.
    - exists (Ok tt), []. split; [left; auto|].
      intros st. cbn [call_if_set]. unfold ret. now rewrite set_trace_app_nil. }
  unfold invoke_callback. repeat case_decide; try apply Hcall.
  destruct (on_replied n) as [f|].
  - eexists _, [CalledWith (rcb_tag f) (userText response)]. split; [right; eauto|].
    intros st. apply call_with_run.
  - exists (Ok tt), []. split; [left; auto|].
    intros st. unfold ret. now rewrite set_trace_app_nil.
Qed.

(** The handler's result and the events it adds are decided by the lookup
    mapping and the response alone. *)
Lemma handler_run (response : UNNotificationResponse) (st : State) :
  exists res evs,
    (length (callbacks evs) <= 1)%nat /\
    (res = Ok tt -> evs = callbacks evs ++ [CompletionHandler]) /\
    forall st', _notification_for_nid st' = _notification_for_nid st ->
      userNotificationCenter_didReceiveNotificationResponse_withCompletionHandler_
        response st'
      = (res, set_trace (trace st' ++ evs) st').
Proof.
  destruct (_notification_for_nid st !! response_identifier response) as [n|] eqn:Hn.
  - destruct (invoke_callback_run n response) as (res & evs & Hshape & Hrun).
    destruct res as [[]|e].
    + exists (Ok tt), (evs ++ [CompletionHandler]).
      split; [|split].
      * rewrite callbacks_app, length_app.
        destruct Hshape as [[_ ->]|(ev & -> & _)]; cbn; [lia|].
        destruct (is_callback ev); cbn; lia.
      * intros _. rewrite callbacks_app. cbn. rewrite app_nil_r.
        destruct Hshape as [[_ ->]|(ev & -> & Hev)]; cbn; [reflexivity|].
        now rewrite Hev.
      * intros st' Hmap. rewrite (handler_found st' response n) by (now rewrite Hmap).
        unfold bind. rewrite Hrun. unfold emit, modify.
        cbn [trace set_trace]. now rewrite app_assoc.
    + exists (Raise e), evs.
      split; [|split].
      * destruct Hshape as [[_ ->]|(ev & -> & _)]; cbn; [lia|].
        destruct (is_callback ev); cbn; lia.
      * discriminate.
      * intros st' Hmap. rewrite (handler_found st' response n) by (now rewrite Hmap).
        unfold bind. now rewrite Hrun.
  - exists (Raise (KeyError (response_identifier response))), [].
    split; [cbn; lia|]. split; [discriminate|].
    intros st' Hmap. rewrite handler_missing by (now rewrite Hmap).
    now rewrite set_trace_app_nil.
Qed.

Lemma dict_get_In {V} (d : pydict V) (key : pystr) (v : V) :
  NoDup (dict_keys d) -> In (key, v) d -> dict_get d key = Some v.
Proof.
  induction d as [|[k w] d IH]; intros Hnd Hin; [contradiction|].
  cbn [dict_keys map fst] in Hnd. apply NoDup_cons in Hnd. destruct Hnd as [Hk Hnd].
  cbn [dict_get]. destruct Hin as [Heq|Hin].
  - injection Heq as -> ->. now rewrite decide_True.
  - rewrite decide_False; [now apply IH|].
    intros ->. apply Hk. apply list_elem_of_In.
    change key with (fst (key, v)). now apply in_map.
Qed.


(** X12. An event leads to at most one callback call, and when the handler
    returns, the completion handler is called after it and nothing else
    is done. *)
Theorem handler_one_callback_then_completion
    (response : UNNotificationResponse) (st : State) :
  let run :=
    userNotificationCenter_didReceiveNotificationResponse_withCompletionHandler_
      response st in
  exists evs,
    trace run.2 = trace st ++ evs /\
    (length (callbacks evs) <= 1)%nat /\
    (run.1 = Ok tt -> evs = callbacks evs ++ [CompletionHandler]).
Proof.
  cbv zeta. destruct (handler_run response st) as (res & evs & Hlen & Hok & Hrun).
  rewrite (Hrun st eq_refl). exists evs. cbn [fst snd trace set_trace]. auto.
Qed.

(** X13. A button press the notification has no button for is ignored:
    when the action identifier is none of the reserved ones and no button
    has it as title, no callback is called, the completion handler is, and
    the handler returns. *)
Theorem unknown_button_ignored
    (response : UNNotificationResponse) (st : State) (n : Notification) :
  _notification_for_nid st !! response_identifier response = Some n ->
  actionIdentifier response <> UNNotificationDefaultActionIdentifier ->
  actionIdentifier response <> UNNotificationDismissActionIdentifier ->
  actionIdentifier response <> ReplyActionIdentifier ->
  dict_get (buttons n) (actionIdentifier response) = None ->
  userNotificationCenter_didReceiveNotificationResponse_withCompletionHandler_
    response st
  = (Ok tt, set_trace (trace st ++ [CompletionHandler]) st).
Proof.
  intros Hn H1 H2 H3 Hget. rewrite (handler_found st response n Hn).
  unfold bind, invoke_callback.
  rewrite !decide_False by assumption. cbv zeta. now rewrite Hget.
Qed.

(** X14. Buttons round-trip through the notification centre: the title of
    every button of a notification is the identifier of an action of the
    category registered for it, and when the centre reports that
    identifier back (and it is none of the reserved ones), exactly that
    button's callback is called, followed by the completion handler unless
    the callback raises. *)
Theorem button_press_round_trip
    (response : UNNotificationResponse) (st : State) (n : Notification)
    (cb : Callback) :
  _notification_for_nid st !! response_identifier response = Some n ->
  NoDup (dict_keys (buttons n)) ->
  In (actionIdentifier response, cb) (buttons n) ->
  actionIdentifier response <> UNNotificationDefaultActionIdentifier ->
  actionIdentifier response <> UNNotificationDismissActionIdentifier ->
  actionIdentifier response <> ReplyActionIdentifier ->
  In (actionIdentifier response)
     (map action_identifier (category_actions (new_category_for n))) /\
  userNotificationCenter_didReceiveNotificationResponse_withCompletionHandler_
    response st
  = (if cb_raises cb then Raise (CallbackError (cb_tag cb)) else Ok tt,
     set_trace
       (trace st ++ Called (cb_tag cb)
          :: (if cb_raises cb then [] else [CompletionHandler])) st).
Proof.
  intros Hn Hnd Hin H1 H2 H3. split.
  - cbn [new_category_for category_actions]. unfold category_actions_for.
    rewrite map_app, in_app_iff. right.
    rewrite map_map. cbn [action_identifier]. rewrite map_id.
    unfold dict_keys. change (actionIdentifier response)
      with (fst (actionIdentifier response, cb)). now apply in_map.
  - rewrite (handler_found st response n Hn).
    unfold bind, invoke_callback.
    rewrite !decide_False by assumption. cbv zeta.
    rewrite (dict_get_In _ _ _ Hnd Hin). cbn [call_if_set]. rewrite call_run.
    destruct (cb_raises cb); [reflexivity|].
    unfold emit, modify. cbn [trace set_trace]. now rewrite <- app_assoc.
Qed.

End Backend.

Lemma unknown_identifier_raises_KeyError_witness :
  _notification_for_nid quiet_state !! response_identifier stale_click = None /\
  (userNotificationCenter_didReceiveNotificationResponse_withCompletionHandler_
     stale_click quiet_state).1
  = Raise (KeyError (response_identifier stale_click)).
Proof.
  split; [reflexivity|].
  exact (proj1 (unknown_identifier_raises_KeyError quiet_state stale_click eq_refl)).
Defined.

(** C1, as stated, fails: for a click on an unknown identifier the handler
    does not return; it raises. *)
Lemma unknown_identifier_not_dropped :
  _notification_for_nid quiet_state !! response_identifier stale_click = None /\
  ~ (exists st',
       userNotificationCenter_didReceiveNotificationResponse_withCompletionHandler_
         stale_click quiet_state = (Ok tt, st')).
Proof.
  split; [reflexivity|].
  intros [st' H]. vm_compute in H. discriminate.
Qed.

(** C2, as stated, fails: when the click callback raises, the completion
    handler is not called at all. *)
Lemma completion_skipped_when_callback_raises :
  completions
    (trace
       (userNotificationCenter_didReceiveNotificationResponse_withCompletionHandler_
          click_n1 raising_state).2)
  <> S (completions (trace raising_state)).
Proof. vm_compute. discriminate. Qed.

Lemma dispatch_precedence_witness :
  _notification_for_nid colliding_state !! response_identifier click_n1
  = Some colliding_notification /\
  exists evs,
    trace
      (userNotificationCenter_didReceiveNotificationResponse_withCompletionHandler_
         click_n1 colliding_state).2
    = trace colliding_state ++ evs /\
    callbacks evs = [Called 1].
Proof.
  assert (H : _notification_for_nid colliding_state !! response_identifier click_n1
              = Some colliding_notification) by (vm_compute; reflexivity).
  split; [exact H|].
  destruct (dispatch_precedence colliding_state click_n1 colliding_notification H)
    as (evs & Ht & Hdefault & _).
  exists evs. split; [exact Ht|]. exact (Hdefault eq_refl).
Defined.

(** C3, as stated, fails at construction: a category registered before is
    gone after [__init__]. *)
Lemma init_removes_registered_categories :
  ~ (categories shared_state ⊆ categories (__init__ shared_state).2).
Proof.
  change (categories shared_state)
    with ({[ foreign_category ]} : gset UNNotificationCategory).
  change (categories (__init__ shared_state).2)
    with (∅ : gset UNNotificationCategory).
  intros H. specialize (H foreign_category).
  assert (Hin : foreign_category ∈ ({[ foreign_category ]} : gset UNNotificationCategory))
    by (now apply elem_of_singleton).
  apply H in Hin.
  exact (not_elem_of_empty _ Hin).
Qed.

Lemma send_unauthorised_raises_witness :
  status_authorized (authorizationStatus denied_state) = false /\
  (_send printable_latin1 plain_notification None denied_state).1
  = Raise (RuntimeError (lit "Not authorised")) /\
  trace (_send printable_latin1 plain_notification None denied_state).2
  = [GetNotificationSettings].
Proof.
  split; [reflexivity|].
  destruct (send_unauthorised_raises printable_latin1 plain_notification None
              denied_state eq_refl) as (Hres & Htrace & _).
  split; [exact Hres | exact Htrace].
Defined.

Lemma send_raises_iff_error_reported_witness :
  status_authorized (authorizationStatus quiet_state) = true /\
  exists request,
    last (trace (_send printable_latin1 plain_notification None quiet_state).2)
    = Some (AddNotificationRequest request) /\
    (error_description (add_request_error quiet_state request) = lit "" ->
     (_send printable_latin1 plain_notification None quiet_state).1
     = Ok (request_identifier request)).
Proof.
  split; [reflexivity|].
  destruct (send_raises_iff_error_reported printable_latin1 plain_notification None
              quiet_state eq_refl) as (request & Hlast & _ & _ & Hok).
  exists request. split; [exact Hlast | exact Hok].
Defined.

Lemma send_reuses_or_draws_fresh_identifier_witness :
  (exists request,
     last (trace (_send printable_latin1 plain_notification
                    (Some raising_notification) quiet_state).2)
     = Some (AddNotificationRequest request) /\
     request_identifier request = lit "n-1") /\
  (let later := (_send printable_latin1 plain_notification None quiet_state).2 in
   exists request1 request2,
     last (trace later) = Some (AddNotificationRequest request1) /\
     last (trace (_send printable_latin1 yes_no_notification None later).2)
     = Some (AddNotificationRequest request2) /\
     request_identifier request1 <> request_identifier request2).
Proof.
  destruct (send_reuses_or_draws_fresh_identifier printable_latin1) as [Hreuse Hfresh].
  split.
  - destruct (Hreuse plain_notification raising_notification (lit "n-1") quiet_state
                eq_refl eq_refl) as (request & Hlast & Hid & _).
    exists request. split; [exact Hlast | exact Hid].
  - cbv zeta.
    assert (Hinj : Inj (=) (=) (uuid_source quiet_state)).
    { intros x y H. apply (f_equal length) in H. cbn in H.
      rewrite !repeat_length in H. lia. }
    assert (Hauth : status_authorized
              (authorizationStatus
                 (_send printable_latin1 plain_notification None quiet_state).2)
            = true) by (vm_compute; reflexivity).
    assert (Hlater :
      (uuid_count (_send printable_latin1 plain_notification None quiet_state).2
       <= uuid_count (_send printable_latin1 plain_notification None quiet_state).2)%nat)
      by lia.
    destruct (Hfresh plain_notification yes_no_notification quiet_state
                (_send printable_latin1 plain_notification None quiet_state).2
                eq_refl Hauth Hinj eq_refl Hlater)
      as (request1 & request2 & H1 & H2 & _ & _ & Hne).
    exists request1, request2. split; [exact H1|]. split; [exact H2 | exact Hne].
Defined.

Lemma category_key_deterministic_and_injective_witness :
  Forall valid_str (dict_keys (buttons yes_no_notification)) /\
  Forall valid_str (dict_keys (buttons no_yes_notification)) /\
  (_create_category_for_notification printable_latin1 yes_no_notification quiet_state).1
  <> (_create_category_for_notification printable_latin1 no_yes_notification quiet_state).1.
Proof.
  assert (H1 : Forall valid_str (dict_keys (buttons yes_no_notification)))
    by (repeat constructor; vm_compute; discriminate).
  assert (H2 : Forall valid_str (dict_keys (buttons no_yes_notification)))
    by (repeat constructor; vm_compute; discriminate).
  split; [exact H1|]. split; [exact H2|].
  intros Heq.
  apply (category_key_deterministic_and_injective printable_latin1
           yes_no_notification no_yes_notification quiet_state quiet_state H1 H2) in Heq.
  destruct Heq as [Hkeys _]. vm_compute in Hkeys. discriminate.
Defined.

Lemma send_records_identifier_witness :
  exists nid st',
    send printable_latin1 plain_notification None quiet_state = (Ok nid, st') /\
    _notification_for_nid st' !! nid = Some plain_notification.
Proof.
  exists (repeat 97 1), (send printable_latin1 plain_notification None quiet_state).2.
  assert (H : send printable_latin1 plain_notification None quiet_state
              = (Ok (repeat 97 1),
                 (send printable_latin1 plain_notification None quiet_state).2))
    by (vm_compute; reflexivity).
  split; [exact H|].
  exact (send_records_identifier printable_latin1 plain_notification None quiet_state
           _ _ H).
Defined.

Lemma no_category_without_buttons_or_reply_witness :
  buttons plain_notification = [] /\ reply_field plain_notification = false /\
  _create_category_for_notification printable_latin1 plain_notification quiet_state
  = (Ok None, quiet_state).
Proof.
  split; [reflexivity|]. split; [reflexivity|].
  exact (proj1 (no_category_without_buttons_or_reply printable_latin1
                  plain_notification None quiet_state eq_refl eq_refl)).
Defined.

(** ** The model on sample inputs *)

Example repr_str_plain :
  repr_str printable_latin1 (lit "Yes") = lit "'Yes'".
Proof. reflexivity. Qed.

(** A single quote alone switches to double quotes; with both kinds of
    quote the single quotes are escaped. *)
Example repr_str_single_quote :
  repr_str printable_latin1 (lit "it's") = DQUOTE :: lit "it's" ++ [DQUOTE].
Proof. reflexivity. Qed.

Example repr_str_both_quotes :
  repr_str printable_latin1 [SQUOTE; DQUOTE] = lit "'\'" ++ [DQUOTE] ++ lit "'".
Proof. reflexivity. Qed.

Example repr_str_escapes :
  repr_str printable_latin1 [9; 10; 1; 233; 8232; 128512]
  = lit "'\t\n\x01" ++ [233] ++ lit "\u2028\U0001f600'".
Proof. vm_compute. reflexivity. Qed.

Example category_id_two_buttons :
  category_id_for printable_latin1 [lit "Yes"; lit "No"] false
  = lit "desktop-notifier: buttons=('Yes', 'No'), reply_field=False".
Proof. vm_compute. reflexivity. Qed.

Example category_id_one_button :
  category_id_for printable_latin1 [lit "Yes"] true
  = lit "desktop-notifier: buttons=('Yes',), reply_field=True".
Proof. vm_compute. reflexivity. Qed.

Example category_id_reply_only :
  category_id_for printable_latin1 [] true
  = lit "desktop-notifier: buttons=(), reply_field=True".
Proof. vm_compute. reflexivity. Qed.

(** Sending a notification with buttons keeps the category another
    process registered. *)
Example send_keeps_foreign_category :
  foreign_category
  ∈ categories (_send printable_latin1 yes_no_notification None shared_state).2.
Proof.
  destruct (send_authorised_run printable_latin1 yes_no_notification None
              shared_state eq_refl) as (evs & cats & Hrun & Hsub & _).
  cbv zeta in Hrun. rewrite Hrun.
  cbn [snd categories set_uuid_count set_categories].
  apply Hsub.
  change (categories shared_state)
    with ({[ foreign_category ]} : gset UNNotificationCategory).
  now apply elem_of_singleton.
Qed.

(** A click on the colliding notification calls the click callback and
    then the completion handler; the button callback (tag 2) is not
    called. *)
Example colliding_click_trace :
  trace
    (userNotificationCenter_didReceiveNotificationResponse_withCompletionHandler_
       click_n1 colliding_state).2
  = [Called 1; CompletionHandler].
Proof. reflexivity. Qed.

(** ** The further properties on sample inputs *)

Lemma category_reused_when_registered_witness :
  _create_category_for_notification printable_latin1 yes_no_notification actionless_state
  = (Ok (Some (category_identifier actionless_category)),
     set_trace (trace actionless_state ++ [GetNotificationCategories]) actionless_state).
Proof.
  apply (category_reused_when_registered printable_latin1 yes_no_notification
           actionless_state actionless_category).
  - reflexivity.
  - change (categories actionless_state)
      with ({[ actionless_category ]} : gset UNNotificationCategory).
    now apply elem_of_singleton.
  - vm_compute. reflexivity.
Defined.

Lemma category_registered_when_absent_witness :
  size (categories
          (_create_category_for_notification printable_latin1 yes_no_notification
             quiet_state).2)
  = S (size (categories quiet_state)).
Proof.
  assert (Habsent : forall c, c ∈ categories quiet_state ->
            category_identifier c
            <> category_id_for printable_latin1
                 (dict_keys (buttons yes_no_notification))
                 (reply_field yes_no_notification)).
  { intros c Hc. exfalso. exact (not_elem_of_empty c Hc). }
  destruct (category_registered_when_absent printable_latin1 yes_no_notification
              quiet_state eq_refl Habsent) as (_ & _ & Hsize & _).
  exact Hsize.
Defined.

Lemma category_resolution_registers_key_witness :
  exists c,
    c ∈ categories
          (_create_category_for_notification printable_latin1 yes_no_notification
             quiet_state).2 /\
    category_identifier c
    = category_id_for printable_latin1 [lit "Yes"; lit "No"] false.
Proof.
  apply (category_resolution_registers_key printable_latin1 yes_no_notification
           quiet_state).
  exact (proj1 (category_resolution_registered_after printable_latin1
                  yes_no_notification quiet_state eq_refl)).
Defined.

Lemma category_resolution_idempotent_witness :
  categories
    (_create_category_for_notification printable_latin1 yes_no_reminder
       (_create_category_for_notification printable_latin1 yes_no_notification
          quiet_state).2).2
  = categories
      (_create_category_for_notification printable_latin1 yes_no_notification
         quiet_state).2.
Proof.
  exact (proj1 (proj2 (category_resolution_idempotent printable_latin1
                         yes_no_notification yes_no_reminder quiet_state
                         eq_refl eq_refl))).
Defined.

Lemma send_same_shape_registers_once_witness :
  category_updates
    (trace (_send printable_latin1 yes_no_reminder None
              (_send printable_latin1 yes_no_notification None quiet_state).2).2)
  = category_updates
      (trace (_send printable_latin1 yes_no_notification None quiet_state).2).
Proof.
  exact (proj2 (send_same_shape_registers_once printable_latin1
                  yes_no_notification yes_no_reminder None None quiet_state
                  eq_refl eq_refl)).
Defined.

Lemma send_content_mirrors_notification_witness :
  exists request,
    last (trace (_send printable_latin1 yes_no_reminder None quiet_state).2)
    = Some (AddNotificationRequest request) /\
    content_body (request_content request) = lit "Still waiting" /\
    content_attachments (request_content request) = [].
Proof.
  destruct (send_content_mirrors_notification printable_latin1 yes_no_reminder None
              quiet_state eq_refl)
    as (request & Hlast & _ & Hbody & _ & _ & _ & Hatt).
  exists request. split; [exact Hlast|]. split; [exact Hbody | exact Hatt].
Defined.

Lemma send_leaves_category_registered_witness :
  exists c,
    c ∈ categories (_send printable_latin1 yes_no_notification None shared_state).2 /\
    category_identifier c
    = category_id_for printable_latin1 [lit "Yes"; lit "No"] false.
Proof.
  exact (send_leaves_category_registered printable_latin1 yes_no_notification None
           shared_state eq_refl eq_refl).
Defined.

Lemma first_resolution_after_init_witness :
  categories
    ((__init__ ;; _create_category_for_notification printable_latin1
                    yes_no_notification) shared_state).2
  = {[ new_category_for printable_latin1 yes_no_notification ]}.
Proof.
  exact (first_resolution_after_init printable_latin1 yes_no_notification
           shared_state eq_refl).
Defined.

Lemma unknown_button_ignored_witness :
  userNotificationCenter_didReceiveNotificationResponse_withCompletionHandler_
    press_maybe yes_no_state
  = (Ok tt, set_trace (trace yes_no_state ++ [CompletionHandler]) yes_no_state).
Proof.
  apply (unknown_button_ignored press_maybe yes_no_state yes_no_notification).
  - vm_compute. reflexivity.
  - vm_compute. discriminate.
  - vm_compute. discriminate.
  - vm_compute. discriminate.
  - vm_compute. reflexivity.
Defined.

Lemma button_press_round_trip_witness :
  userNotificationCenter_didReceiveNotificationResponse_withCompletionHandler_
    press_yes yes_no_state
  = (Ok tt, set_trace (trace yes_no_state ++ [Called 3; CompletionHandler]) yes_no_state).
Proof.
  refine (proj2 (button_press_round_trip printable_latin1 press_yes yes_no_state
                   yes_no_notification {| cb_tag := 3; cb_raises := false |}
                   _ _ _ _ _ _)).
  - vm_compute. reflexivity.
  - apply (bool_decide_unpack (NoDup (dict_keys (buttons yes_no_notification)))).
    vm_compute. exact I.
  - left. reflexivity.
  - vm_compute. discriminate.
  - vm_compute. discriminate.
  - vm_compute. discriminate.
Defined.
